(** * Indra SDK client and blend sweep: a shallow embedding

    Sources embedded here:
    - [sdk/python/indra_sdk/client.py]   (class [IndraClient])
    - [examples/python/parameter_sweep.py] ([mutate_manifest], [main])

    Python values are JSON trees; a [dict] is an insertion-ordered
    association list; exceptions are an inductive type; the caller-owned
    payload dictionaries live in a store of mutable objects, so that an
    in-place update through a reference is visible to the caller. *)

From Stdlib Require Import ZArith Ascii String List Floats.PrimFloat.
From stdpp Require Import base strings gmap list.
Import ListNotations.
Local Open Scope string_scope.

(** ** Python values *)

Module Py.

(** What [json.loads] can produce. *)
#[local] Unset Elimination Schemes.
Inductive json :=
| JNull
| JBool (b : bool)
| JInt (z : Z)
| JFloat (f : float)
| JStr (s : string)
| JArr (xs : list json)
| JObj (kvs : list (string * json)).
#[local] Set Elimination Schemes.

(** A Python [dict] with string keys: insertion-ordered. *)
Abbreviation pydict := (list (string * json)).

(** The error numbers of the operating system that matter here, each
    with the subclass of [OSError] Python raises for it: ENOENT is
    FileNotFoundError, EEXIST is FileExistsError, ENOTDIR is
    NotADirectoryError, EISDIR is IsADirectoryError. *)
Inductive os_errno := ENOENT | EEXIST | ENOTDIR | EISDIR.

(** The exceptions that the embedded code can raise or let through.
    [FileNotFoundError msg] is the one [main] raises itself, with a
    message; an error of the operating system is [OSError errno filename],
    with the [errno] and [filename] attributes of the exception. *)
Inductive exn :=
| ValueError (msg : string)
| RuntimeError (msg : string)
| AttributeError
| TypeError
| KeyError (key : string)
| FileNotFoundError (msg : string)
| JSONDecodeError
| URLError (reason : string)
| UnicodeDecodeError
| OSError (errno : os_errno) (filename : string)
| InvalidRef.   (* a reference to no object: unreachable from Python *)

Inductive result (A : Type) :=
| Ok (a : A)
| Raise (e : exn).
Arguments Ok {A} a.
Arguments Raise {A} e.

(** [key in d] *)
Fixpoint dict_contains (k : string) (d : pydict) : bool :=
  match d with
  | [] => false
  | (k', _) :: d' => if String.eqb k' k then true else dict_contains k d'
  end.

(** [d.get(key)] ([None] of Rocq standing for the missing key) *)
Fixpoint dict_get (k : string) (d : pydict) : option json :=
  match d with
  | [] => None
  | (k', v) :: d' => if String.eqb k' k then Some v else dict_get k d'
  end.

(** [d[key] = v]: an existing key keeps its position. *)
Fixpoint dict_set (k : string) (v : json) (d : pydict) : pydict :=
  match d with
  | [] => [(k, v)]
  | (k', v') :: d' =>
      if String.eqb k' k then (k', v) :: d' else (k', v') :: dict_set k v d'
  end.

(** [d.setdefault(key, v)]: the dictionary afterwards, and the value
    returned (the stored one when the key was present). *)
Definition dict_setdefault (k : string) (v : json) (d : pydict)
  : pydict * json :=
  match dict_get k d with
  | Some v' => (d, v')
  | None => (dict_set k v d, v)
  end.

(** [obj.get(key)] on an arbitrary value: only a dict has [.get]. *)
Definition py_get (obj : json) (k : string) : result (option json) :=
  match obj with
  | JObj d => Ok (dict_get k d)
  | _ => Raise AttributeError
  end.

(** [obj.get(key, default)] *)
Definition py_get_default (obj : json) (k : string) (dflt : json)
  : result json :=
  match obj with
  | JObj d => Ok (default dflt (dict_get k d))
  | _ => Raise AttributeError
  end.

(** [obj[key]] with a string key. *)
Definition py_getitem (obj : json) (k : string) : result json :=
  match obj with
  | JObj d =>
      match dict_get k d with
      | Some v => Ok v
      | None => Raise (KeyError k)
      end
  | _ => Raise TypeError
  end.

(** [value == "literal"] *)
Definition py_eq_str (v : option json) (lit : string) : bool :=
  match v with
  | Some (JStr s) => String.eqb s lit
  | _ => false
  end.

(** [for x in v]: the values a loop over [v] visits. A dict yields its
    keys and a string its characters; numbers, booleans and [None] are
    not iterable. *)
Definition py_iter (v : json) : result (list json) :=
  match v with
  | JArr xs => Ok xs
  | JObj d => Ok (map (fun kv => JStr (fst kv)) d)
  | JStr s => Ok (map (fun c => JStr (String c EmptyString)) (list_ascii_of_string s))
  | _ => Raise TypeError
  end.

(** Running a step on each element in turn, stopping at the first
    exception. *)
Fixpoint for_each {A B} (step : A -> result B) (xs : list A) : result (list B) :=
  match xs with
  | [] => Ok []
  | x :: xs' =>
      match step x with
      | Raise e => Raise e
      | Ok y =>
          match for_each step xs' with
          | Raise e => Raise e
          | Ok ys => Ok (y :: ys)
          end
      end
  end.

(** [sep.join(parts)] *)
Fixpoint join (sep : string) (parts : list string) : string :=
  match parts with
  | [] => EmptyString
  | [p] => p
  | p :: ps => p ++ sep ++ join sep ps
  end.

(** [needle in hay] on strings. *)
Fixpoint str_contains (needle hay : string) : bool :=
  String.prefix needle hay ||
  match hay with
  | EmptyString => false
  | String _ hay' => str_contains needle hay'
  end.

(** [s] between double quotes, as it stands inside a Python string literal. *)
Definition quoted (s : string) : string :=
  String (ascii_of_nat 34) (s ++ String (ascii_of_nat 34) EmptyString).

(** [s.rstrip("/")] *)
Fixpoint rstrip_slash (s : string) : string :=
  match s with
  | EmptyString => EmptyString
  | String c s' =>
      match rstrip_slash s' with
      | EmptyString => if Ascii.eqb c "/"%char then EmptyString else String c EmptyString
      | t => String c t
      end
  end.

End Py.
Import Py.


(** ** The world the program runs in *)

(** A regular file, as far as the program can tell files apart: text
    that [json.loads] parses to [doc], the report file behind the open
    [csv] handle (text, not JSON), other text that is not JSON, and bytes
    that [read_text] cannot decode (an image). *)
Inductive file :=
| JsonFile (doc : json)
| CsvFile
| OtherFile
| BinaryFile.

Abbreviation filesystem := (gmap string file).

(** References to caller-visible [dict] objects. *)
Abbreviation loc := positive.

(** One HTTP request as [urllib.request.Request] is built in [_request];
    [data] is the body as serialised by [json.dumps] at that moment. *)
Record request := Request {
  method : string;
  url : string;
  data : option pydict;
  headers : list (string * string)
}.

(** What comes back from [urlopen] followed by [json.loads]. *)
Inductive reply :=
| Unreachable (e : exn)   (* connecting, reading or decoding raises [e] *)
| NonJson                 (* a body that [json.loads] rejects *)
| Body (j : json).        (* a body that parses to [j] *)

Section Indra.

(** The service at the other end: any state machine; it runs on the same
    machine and may read and write files. *)
Variable server_state : Type.
Variable serve :
  server_state -> request -> filesystem -> server_state * reply * filesystem.

(** [tempfile.NamedTemporaryFile(delete=False)] picks a name that no
    existing file has. *)
Variable mktemp : filesystem -> string.
Hypothesis mktemp_fresh : forall files : filesystem, files !! mktemp files = None.

(** Python's [str] on a value that is not a string, and the format
    specification [.2f] on a float: builtins outside the repository. *)
Variable str_value : json -> string.
Variable format_2f : float -> string.

(** The world: regular files and directories are held apart. The service
    reads and writes regular files; directories are made by the program
    only ([mkdir]). The temporary directory of [tempfile] is taken as
    given: [mktemp] names a path in it at which nothing is. *)
Record world := World {
  heap : gmap loc pydict;            (* the [dict] objects callers hold *)
  fs : filesystem;                   (* the regular files, by path *)
  net : list (request * reply);      (* exchanges so far, oldest first *)
  srv : server_state;
  sink : list (list json);           (* rows given to the csv writer *)
  dirs : gset string                 (* the directories, by path *)
}.

Definition set_heap (h : gmap loc pydict) (w : world) : world :=
  World h (fs w) (net w) (srv w) (sink w) (dirs w).
Definition set_fs (f : filesystem) (w : world) : world :=
  World (heap w) f (net w) (srv w) (sink w) (dirs w).
Definition set_sink (rows : list (list json)) (w : world) : world :=
  World (heap w) (fs w) (net w) (srv w) rows (dirs w).
Definition set_dirs (d : gset string) (w : world) : world :=
  World (heap w) (fs w) (net w) (srv w) (sink w) d.

(** Computations: a result or an exception, and the world afterwards. *)
Definition M (A : Type) : Type := world -> result A * world.

Definition ret {A} (a : A) : M A := fun w => (Ok a, w).
Definition raise {A} (e : exn) : M A := fun w => (Raise e, w).
Definition bind {A B} (c : M A) (k : A -> M B) : M B :=
  fun w =>
    match c w with
    | (Ok a, w') => k a w'
    | (Raise e, w') => (Raise e, w')
    end.
Definition lift {A} (r : result A) : M A := fun w => (r, w).

(** [try: c except Exception: ...]: the outcome of [c] as a value. *)
Definition attempt {A} (c : M A) : M (result A) :=
  fun w => let '(r, w') := c w in (Ok r, w').

(** [try: body finally: fin] *)
Definition try_finally {A} (body : M A) (fin : M unit) : M A :=
  fun w =>
    let '(r, w1) := body w in
    match fin w1 with
    | (Ok _, w2) => (r, w2)
    | (Raise e, w2) => (Raise e, w2)
    end.

Definition rbind {A B} (r : result A) (k : A -> result B) : result B :=
  match r with
  | Ok a => k a
  | Raise e => Raise e
  end.

Notation "x <- c ;; k" := (bind c (fun x => k))
  (at level 20, c at level 99, k at level 200, right associativity).
Notation "c ;; k" := (bind c (fun _ => k))
  (at level 100, k at level 200, right associativity).
Notation "x <~ c ;; k" := (rbind c (fun x => k))
  (at level 20, c at level 99, k at level 200, right associativity).

(** *** Primitive effects *)

(** Reading the object behind a reference. *)
Definition deref (p : loc) : M pydict :=
  fun w =>
    match heap w !! p with
    | Some d => (Ok d, w)
    | None => (Raise InvalidRef, w)
    end.

(** Replacing, in place, the contents of the object behind a reference. *)
Definition store (p : loc) (d : pydict) : M unit :=
  fun w => (Ok tt, set_heap (<[p := d]> (heap w)) w).

(** A dict display [{...}]: a new object. *)
Definition alloc (d : pydict) : M loc :=
  fun w =>
    let p := fresh (dom (heap w)) in
    (Ok p, set_heap (<[p := d]> (heap w)) w).

(** [urlopen(req)], reading the body and [json.loads]: one exchange. *)
Definition exchange (req : request) : M reply :=
  fun w =>
    let '(s', r, files) := serve (srv w) req (fs w) in
    (Ok r, World (heap w) files (net w ++ [(req, r)])%list s' (sink w) (dirs w)).

(** The directories above [path], outermost first: the prefixes of
    [path] that end before a slash (the root itself is always there). *)
Fixpoint ancestors_from (done rest : string) : list string :=
  match rest with
  | EmptyString => []
  | String c rest' =>
      if Ascii.eqb c "/"%char then
        match done with
        | EmptyString => ancestors_from (done ++ "/") rest'
        | _ => done :: ancestors_from (done ++ "/") rest'
        end
      else ancestors_from (done ++ String c EmptyString) rest'
  end.

Definition ancestors (path : string) : list string :=
  ancestors_from EmptyString path.

(** A regular file sits where a directory is needed. *)
Definition blocked (above : list string) (files : filesystem) : bool :=
  existsb (fun a => bool_decide (is_Some (files !! a))) above.

(** [path.exists()]: a regular file or a directory. *)
Definition path_exists (path : string) : M bool :=
  fun w =>
    (Ok (bool_decide (is_Some (fs w !! path)) || bool_decide (path ∈ dirs w)), w).

(** The error of opening a path at which no regular file is. *)
Definition open_error (path : string) (w : world) : exn :=
  if blocked (ancestors path) (fs w) then OSError ENOTDIR path
  else if bool_decide (path ∈ dirs w) then OSError EISDIR path
  else OSError ENOENT path.

(** [json.loads(path.read_text())] *)
Definition read_json (path : string) : M json :=
  fun w =>
    match fs w !! path with
    | None => (Raise (open_error path w), w)
    | Some (JsonFile doc) => (Ok doc, w)
    | Some BinaryFile => (Raise UnicodeDecodeError, w)
    | Some _ => (Raise JSONDecodeError, w)
    end.

(** [path.mkdir(parents=True, exist_ok=True)]: a regular file above the
    path or at the path makes it fail (NotADirectoryError,
    FileExistsError) before anything is made; otherwise the path and
    every directory above it are directories afterwards. *)
Definition mkdir_parents (path : string) : M unit :=
  fun w =>
    if blocked (ancestors path) (fs w) then (Raise (OSError ENOTDIR path), w)
    else if bool_decide (is_Some (fs w !! path)) then (Raise (OSError EEXIST path), w)
    else (Ok tt, set_dirs (dirs w ∪ list_to_set (ancestors path ++ [path])) w).

(** [NamedTemporaryFile("w", ..., delete=False)] with [json.dump(doc, tmp)]. *)
Definition write_temp_json (doc : json) : M string :=
  fun w =>
    let path := mktemp (fs w) in
    (Ok path, set_fs (<[path := JsonFile doc]> (fs w)) w).

(** [path.unlink(missing_ok=True)] *)
Definition unlink_missing_ok (path : string) : M unit :=
  fun w => (Ok tt, set_fs (delete path (fs w)) w).

(** [path.open("w")] with [csv.writer(handle)]: the directories above
    must be there and the path must not be a directory; then the file is
    created or truncated, and the writer starts with no row. *)
Definition open_csv (path : string) : M unit :=
  fun w =>
    if blocked (ancestors path) (fs w) then (Raise (OSError ENOTDIR path), w)
    else if negb (forallb (fun a => bool_decide (a ∈ dirs w)) (ancestors path))
    then (Raise (OSError ENOENT path), w)
    else if bool_decide (path ∈ dirs w) then (Raise (OSError EISDIR path), w)
    else (Ok tt, set_sink [] (set_fs (<[path := CsvFile]> (fs w)) w)).

(** [writer.writerow(row)] *)
Definition writerow (row : list json) : M unit :=
  fun w => (Ok tt, set_sink (sink w ++ [row])%list w).

(** ** [indra_sdk/client.py] *)

Definition py_str (v : json) : string :=
  match v with
  | JStr s => s
  | _ => str_value v
  end.

Record IndraClientOptions := Options {
  base_url : string;
  timeout : float
}.

Definition default_options : IndraClientOptions :=
  Options "http://127.0.0.1:8787" 60%float.

Record IndraClient := Client {
  _base_url : string;
  _timeout : float
}.

(** [IndraClient.__init__] *)
Definition new_client (options : option IndraClientOptions) : IndraClient :=
  let opts := default default_options options in
  Client (rstrip_slash (base_url opts)) (timeout opts).

(** [IndraClient._require_keys] *)
Definition _require_keys (payload : loc) (keys : list string)
    (operation : string) : M unit :=
  d <- deref payload ;;
  let missing := List.filter (fun key => negb (dict_contains key d)) keys in
  match missing with
  | [] => ret tt
  | _ => raise (ValueError (operation ++ " requires keys: " ++ join ", " missing))
  end.

(** [IndraClient._expect_ok] *)
Definition _expect_ok (response : json) : result pydict :=
  status <~ py_get response "status" ;;
  if negb (py_eq_str status "ok") then
    message <~ py_get_default response "message" (JStr "Unknown error") ;;
    Raise (RuntimeError (py_str message))
  else
    match response with
    | JObj items => Ok (List.filter (fun kv => negb (String.eqb (fst kv) "status")) items)
    | _ => Raise AttributeError
    end.

(** [IndraClient._request] *)
Definition _request (self : IndraClient) (method path : string)
    (body : option loc) : M json :=
  let url := _base_url self ++ path in
  data <- match body with
          | Some p => d <- deref p ;; ret (Some d)
          | None => ret None
          end ;;
  let headers :=
    match body with
    | Some _ => [("Content-Type", "application/json")]
    | None => []
    end in
  r <- exchange (Request method url data headers) ;;
  match r with
  | Unreachable e => raise e
  | NonJson => raise JSONDecodeError
  | Body j => ret j
  end.

(** [IndraClient.health] *)
Definition health (self : IndraClient) : M bool :=
  r <- attempt (_request self "GET" "/health" None) ;;
  match r with
  | Raise _ => ret false
  | Ok response =>
      status <- lift (py_get response "status") ;;
      ret (py_eq_str status "ok")
  end.

(** [payload.setdefault(key, value)] through the caller's reference. *)
Definition setdefault_at (payload : loc) (key : string) (value : json) : M json :=
  d <- deref payload ;;
  let '(d', v) := dict_setdefault key value d in
  store payload d' ;;
  ret v.

(** [IndraClient.render] *)
Definition render (self : IndraClient) (payload : loc) : M pydict :=
  _require_keys payload ["input"; "output"] "render" ;;
  setdefault_at payload "bitDepth" (JInt 8) ;;
  response <- _request self "POST" "/render" (Some payload) ;;
  lift (_expect_ok response).

(** [IndraClient.simulate] *)
Definition simulate (self : IndraClient) (payload : loc) : M pydict :=
  _require_keys payload ["input"] "simulate" ;;
  response <- _request self "POST" "/simulate" (Some payload) ;;
  lift (_expect_ok response).

(** [IndraClient.capture] *)
Definition capture (self : IndraClient) (payload : loc) : M pydict :=
  _require_keys payload ["input"; "output"] "capture" ;;
  response <- _request self "POST" "/capture" (Some payload) ;;
  lift (_expect_ok response).

(** [IndraClient.validate_manifest] *)
Definition validate_manifest (self : IndraClient) (payload : loc) : M pydict :=
  d <- deref payload ;;
  if negb (dict_contains "manifest" d) && negb (dict_contains "manifestPath" d) then
    raise (ValueError ("manifest validation requires " ++ quoted "manifest"
                       ++ " or " ++ quoted "manifestPath" ++ "."))
  else
    response <- _request self "POST" "/manifest/validate" (Some payload) ;;
    lift (_expect_ok response).

(** The four operations that post a payload, and the call of one of them. *)
Inductive operation := Render | Simulate | Capture | ValidateManifest.

Definition call (op : operation) (self : IndraClient) (payload : loc) : M pydict :=
  match op with
  | Render => render self payload
  | Simulate => simulate self payload
  | Capture => capture self payload
  | ValidateManifest => validate_manifest self payload
  end.

(** *** Vocabulary for the statements about the client *)

(** The reply the service gives to [req] in world [w], and the world
    after that exchange. *)
Definition reply_to (req : request) (w : world) : reply :=
  snd (fst (serve (srv w) req (fs w))).

Definition after_exchange (req : request) (w : world) : world :=
  World (heap w) (snd (serve (srv w) req (fs w)))
        (net w ++ [(req, reply_to req w)])%list
        (fst (fst (serve (srv w) req (fs w)))) (sink w) (dirs w).

(** What [_request] returns for a reply. *)
Definition decode (r : reply) : result json :=
  match r with
  | Unreachable e => Raise e
  | NonJson => Raise JSONDecodeError
  | Body j => Ok j
  end.

(** The request [_request(self, "POST", path, body)] builds when [body]
    serialises as [d]. *)
Definition post_request (self : IndraClient) (path : string) (d : pydict) : request :=
  Request "POST" (_base_url self ++ path) (Some d)
          [("Content-Type", "application/json")].

(** The request of [health]. *)
Definition health_request (self : IndraClient) : request :=
  Request "GET" (_base_url self ++ "/health") None [].

Definition op_name (op : operation) : string :=
  match op with
  | Render => "render"
  | Simulate => "simulate"
  | Capture => "capture"
  | ValidateManifest => "validate_manifest"
  end.

(** The keys [_require_keys] is given by each operation
    ([validate_manifest] checks a pair of keys itself). *)
Definition required_keys (op : operation) : list string :=
  match op with
  | Render => ["input"; "output"]
  | Simulate => ["input"]
  | Capture => ["input"; "output"]
  | ValidateManifest => []
  end.

(** The payload [d] does not pass the check of [op]. *)
Definition lacks_required (op : operation) (d : pydict) : Prop :=
  match op with
  | ValidateManifest =>
      dict_contains "manifest" d = false /\ dict_contains "manifestPath" d = false
  | _ => exists key, In key (required_keys op) /\ dict_contains key d = false
  end.

(** ** [examples/python/parameter_sweep.py] *)

Definition MANIFEST_PATH : string := "public/sample-manifest.json".
Definition INPUT_IMAGE : string := "examples/assets/sample-input.png".
Definition OUTPUT_DIR : string := "examples/artifacts".

(** The body of the loop of [mutate_manifest] on one preset:
    [if preset.get("id") == "balanced-optics":
       preset.setdefault("panels", {}).setdefault("compositor", {})["blend"] = blend],
    giving the preset as it is afterwards. *)
Definition mutate_preset (blend : float) (preset : json) : result json :=
  id <~ py_get preset "id" ;;
  if py_eq_str id "balanced-optics" then
    match preset with
    | JObj d =>
        let '(d1, panels) := dict_setdefault "panels" (JObj []) d in
        match panels with
        | JObj pd =>
            let '(pd1, compositor) := dict_setdefault "compositor" (JObj []) pd in
            match compositor with
            | JObj cd =>
                let cd1 := dict_set "blend" (JFloat blend) cd in
                Ok (JObj (dict_set "panels"
                            (JObj (dict_set "compositor" (JObj cd1) pd1)) d1))
            | _ => Raise TypeError      (* no item assignment with a string key *)
            end
        | _ => Raise AttributeError     (* no [setdefault] *)
        end
    | _ => Raise AttributeError
    end
  else Ok preset.

(** Lines 24 to 27 of [mutate_manifest]: the document as it is after the
    loop. [json.loads] builds a tree without sharing and the presets the
    loop updates in place are the elements of [data["controls"]["presets"]],
    so the document afterwards is [data] with these elements replaced;
    when a default of [.get] was used there is nothing to replace. *)
Definition mutate_data (blend : float) (data : json) : result json :=
  controls <~ py_get_default data "controls" (JObj []) ;;
  presets <~ py_get_default controls "presets" (JArr []) ;;
  items <~ py_iter presets ;;
  items' <~ for_each (mutate_preset blend) items ;;
  match data, controls, presets with
  | JObj d, JObj c, JArr _ =>
      if dict_contains "controls" d && dict_contains "presets" c then
        Ok (JObj (dict_set "controls" (JObj (dict_set "presets" (JArr items') c)) d))
      else Ok data
  | _, _, _ => Ok data
  end.

(** *** Vocabulary for the statements about manifests *)

(** The value found by following [path] through nested objects. *)
Fixpoint json_at (path : list string) (j : json) : option json :=
  match path with
  | [] => Some j
  | k :: rest =>
      match j with
      | JObj d =>
          match dict_get k d with
          | Some v => json_at rest v
          | None => None
          end
      | _ => None
      end
  end.

(** The keys of an object, in order. *)
Definition keys_of (j : json) : list string :=
  match j with
  | JObj d => map fst d
  | _ => []
  end.

(** A preset whose id is balanced-optics. *)
Definition is_target (preset : json) : bool :=
  py_eq_str (json_at ["id"] preset) "balanced-optics".

(** Presets the loop can work on: objects, and for a preset with the
    sought id, panels and panels.compositor are objects where present. *)
Definition wf_preset (preset : json) : bool :=
  match preset with
  | JObj d =>
      if is_target preset then
        match dict_get "panels" d with
        | None => true
        | Some (JObj pd) =>
            match dict_get "compositor" pd with
            | None | Some (JObj _) => true
            | Some _ => false
            end
        | Some _ => false
        end
      else true
  | _ => false
  end.

(** The documents the loop can work on. These are the manifests as the
    specification describes them: an object whose controls, where
    present, is an object whose presets, where present, is a list of such
    presets; and besides, an empty dict or an empty string in the place
    of the list, over which the loop does not run at all. *)
Definition wf_manifest (doc : json) : bool :=
  match doc with
  | JObj d =>
      match dict_get "controls" d with
      | None => true
      | Some (JObj c) =>
          match dict_get "presets" c with
          | None => true
          | Some (JArr ps) => forallb wf_preset ps
          | Some (JObj []) | Some (JStr EmptyString) => true
          | Some _ => false
          end
      | Some _ => false
      end
  | _ => false
  end.

(** [p'] is [p] up to the blend under panels.compositor when [p] has the
    sought id, and is [p] otherwise. *)
Definition preset_frame (p p' : json) : Prop :=
  if is_target p then
    keys_of p' = (if dict_contains "panels" (match p with JObj d => d | _ => [] end)
                  then keys_of p else keys_of p ++ ["panels"])%list
    /\ (forall k, k <> "panels" -> json_at [k] p' = json_at [k] p)
    /\ (forall k, k <> "compositor" ->
                  json_at ["panels"; k] p' = json_at ["panels"; k] p)
    /\ (forall k, k <> "blend" ->
                  json_at ["panels"; "compositor"; k] p'
                  = json_at ["panels"; "compositor"; k] p)
  else p' = p.

(** [doc'] is [doc] up to the blend of the presets with the sought id. *)
Definition manifest_frame (doc doc' : json) : Prop :=
  keys_of doc' = keys_of doc
  /\ (forall k, k <> "controls" -> json_at [k] doc' = json_at [k] doc)
  /\ (forall c, json_at ["controls"] doc = Some c ->
       exists c', json_at ["controls"] doc' = Some c' /\ keys_of c' = keys_of c)
  /\ (forall k, k <> "presets" ->
                json_at ["controls"; k] doc' = json_at ["controls"; k] doc)
  /\ match json_at ["controls"; "presets"] doc with
     | Some (JArr ps) =>
         exists ps', json_at ["controls"; "presets"] doc' = Some (JArr ps')
                     /\ Forall2 preset_frame ps ps'
     | other => json_at ["controls"; "presets"] doc' = other
     end.

(** The blend of a preset with the sought id was set to [blend], the
    mappings on the way being created where they were absent. *)
Definition blend_set (blend : float) (p p' : json) : Prop :=
  is_target p = true ->
  json_at ["panels"; "compositor"; "blend"] p' = Some (JFloat blend)
  /\ (json_at ["panels"] p = None ->
      json_at ["panels"] p'
      = Some (JObj [("compositor", JObj [("blend", JFloat blend)])]))
  /\ (json_at ["panels"; "compositor"] p = None ->
      json_at ["panels"; "compositor"] p' = Some (JObj [("blend", JFloat blend)])).

(** The presets of a document, when it has a list of them. *)
Definition presets_of (doc : json) : list json :=
  match json_at ["controls"; "presets"] doc with
  | Some (JArr ps) => ps
  | _ => []
  end.

(** [mutate_manifest] *)
Definition mutate_manifest (blend : float) : M string :=
  data <- read_json MANIFEST_PATH ;;
  data' <- lift (mutate_data blend data) ;;
  temp_path <- write_temp_json data' ;;
  ret temp_path.

Definition output_path (blend : float) : string :=
  OUTPUT_DIR ++ "/render_" ++ format_2f blend ++ ".png".

(** One turn of the loop of [main] (lines 55 to 70). *)
Definition sweep_point (client : IndraClient) (blend : float) : M unit :=
  manifest <- mutate_manifest blend ;;
  try_finally
    (payload <- alloc [("input", JStr INPUT_IMAGE);
                       ("output", JStr (output_path blend));
                       ("manifest", JStr manifest);
                       ("preset", JStr "balanced-optics")] ;;
     result <- render client payload ;;
     metrics <- lift (py_getitem (JObj result) "metrics") ;;
     indra_index <- lift (py_getitem metrics "indraIndex") ;;
     rim_mean <- lift (py_getitem metrics "rimMean") ;;
     coherence_mean <- lift (py_getitem metrics "coherenceMean") ;;
     writerow [JFloat blend; indra_index; rim_mean; coherence_mean])
    (unlink_missing_ok manifest).

(** [for blend in blends: ...] *)
Fixpoint sweep_loop (client : IndraClient) (blends : list float) : M unit :=
  match blends with
  | [] => ret tt
  | blend :: rest => sweep_point client blend ;; sweep_loop client rest
  end.

Definition header : list json :=
  [JStr "blend"; JStr "indra_index"; JStr "rim_mean"; JStr "coherence_mean"].

(** [main], with the list of blends as a parameter. The final [print] is
    not modelled. *)
Definition run_sweep (blends : list float) : M unit :=
  found <- path_exists INPUT_IMAGE ;;
  if negb found then
    raise (FileNotFoundError ("Input image missing: " ++ INPUT_IMAGE
             ++ ". Create the file before running this example."))
  else
    let client := new_client None in
    healthy <- health client ;;
    if negb healthy then
      raise (RuntimeError
               "Local Indra REST server is not reachable on http://127.0.0.1:8787")
    else
      mkdir_parents OUTPUT_DIR ;;
      let csv_path := OUTPUT_DIR ++ "/blend_sweep.csv" in
      open_csv csv_path ;;
      writerow header ;;
      sweep_loop client blends.

(** *** Vocabulary for the statements about the sweep *)

(** The body [render] sends for the point [blend] when the temporary
    manifest is at [manifest]: the dict of [main] with the default
    bitDepth added. *)
Definition sent_payload (blend : float) (manifest : string) : pydict :=
  [("input", JStr INPUT_IMAGE);
   ("output", JStr (output_path blend));
   ("manifest", JStr manifest);
   ("preset", JStr "balanced-optics");
   ("bitDepth", JInt 8)].

(** [req] is the request of the point [blend]. *)
Definition sent_for (client : IndraClient) (blend : float) (req : request) : Prop :=
  exists manifest, req = post_request client "/render" (sent_payload blend manifest).

(** [row] is the report row of the point [blend] when the service
    answered [answer]: the answer is an object with status ok whose
    metrics is an object with the three metrics. *)
Definition point_row (blend : float) (answer : reply) (row : list json) : Prop :=
  exists (resp metrics : pydict) (a b c : json),
    answer = Body (JObj resp)
    /\ dict_get "status" resp = Some (JStr "ok")
    /\ dict_get "metrics" resp = Some (JObj metrics)
    /\ dict_get "indraIndex" metrics = Some a
    /\ dict_get "rimMean" metrics = Some b
    /\ dict_get "coherenceMean" metrics = Some c
    /\ row = [JFloat blend; a; b; c].

(** The points that completed, in order, each with its one exchange and
    its one row. *)
Inductive sweep_trace (client : IndraClient)
  : list float -> list (request * reply) -> list (list json) -> Prop :=
| trace_nil : sweep_trace client [] [] []
| trace_cons blend rest req answer row exchanges rows :
    sent_for client blend req ->
    point_row blend answer row ->
    sweep_trace client rest exchanges rows ->
    sweep_trace client (blend :: rest) ((req, answer) :: exchanges) (row :: rows).

(** The row that lines 65 to 68 build from the result of [render]. *)
Definition row_of (blend : float) (res : pydict) : result (list json) :=
  metrics <~ py_getitem (JObj res) "metrics" ;;
  indra_index <~ py_getitem metrics "indraIndex" ;;
  rim_mean <~ py_getitem metrics "rimMean" ;;
  coherence_mean <~ py_getitem metrics "coherenceMean" ;;
  Ok [JFloat blend; indra_index; rim_mean; coherence_mean].

(** The report file of [main]. *)
Definition CSV_PATH : string := OUTPUT_DIR ++ "/blend_sweep.csv".

(** How the loop ended, in the world [w'] it ended in. Either every
    blend was done. Or the first blend of [rest] failed and nothing was
    done for the blends after it: its manifest could not be derived
    ([mutate_manifest] raises [e], changing nothing, so that [w'] is also
    the world this blend started in), or its render request was sent and
    what came back made [render] or the reading of the metrics raise [e]. *)
Definition loop_end (client : IndraClient) (r : result unit)
    (rest : list float) (added exchanges : list (request * reply))
    (w' : world) : Prop :=
  match r with
  | Ok _ => rest = [] /\ added = exchanges
  | Raise e =>
      exists blend rest',
        rest = blend :: rest'
        /\ ((added = exchanges /\ mutate_manifest blend w' = (Raise e, w'))
            \/ exists req answer,
                 sent_for client blend req
                 /\ added = (exchanges ++ [(req, answer)])%list
                 /\ rbind (rbind (decode answer) _expect_ok) (row_of blend)
                    = Raise e)
  end.

(** Nothing stands in the way of the report: no regular file is at the
    output directory or above it, and the report path is not a directory. *)
Definition report_clear (w : world) : Prop :=
  (forall c, In c (ancestors OUTPUT_DIR ++ [OUTPUT_DIR])%list -> fs w !! c = None)
  /\ CSV_PATH ∉ dirs w.

#[local] Set Warnings "-inexact-float".
Definition blends : list float := [0.3; 0.4; 0.5; 0.6; 0.7]%float.
#[local] Set Warnings "inexact-float".

(** [main] *)
Definition main : M unit := run_sweep blends.

(** *** Vocabulary for further statements *)

(** The path each operation posts to. *)
Definition op_path (op : operation) : string :=
  match op with
  | Render => "/render"
  | Simulate => "/simulate"
  | Capture => "/capture"
  | ValidateManifest => "/manifest/validate"
  end.

(** The body an operation sends for the payload [d]: [render] first
    fills in the default bitDepth. *)
Definition sent_body (op : operation) (d : pydict) : pydict :=
  match op with
  | Render => fst (dict_setdefault "bitDepth" (JInt 8) d)
  | _ => d
  end.

(** [n] slashes. *)
Fixpoint slashes (n : nat) : string :=
  match n with
  | O => EmptyString
  | S n' => String "/"%char (slashes n')
  end.

(** [s.endswith("/")] *)
Fixpoint ends_with_slash (s : string) : bool :=
  match s with
  | EmptyString => false
  | String c s' =>
      match s' with
      | EmptyString => Ascii.eqb c "/"%char
      | String _ _ => ends_with_slash s'
      end
  end.

(** A service that leaves the files alone. *)
Definition file_neutral : Prop :=
  forall (s : server_state) (req : request) (files : filesystem),
    snd (serve s req files) = files.

(** ** Scenarios

    A scripted service, a name chooser and concrete values on which the
    model is run and the statements below are instantiated. *)

(** The service answers its [n]-th request with the [n]-th answer of a
    script and touches no file. *)
Definition scripted (answers : list reply) (n : nat) (req : request)
    (files : filesystem) : nat * reply * filesystem :=
  (S n, nth n answers NonJson, files).

(** A name no file has yet. *)
Definition demo_mktemp (files : filesystem) : string := fresh (dom files).

Definition demo_str (v : json) : string := "<value>".
Definition demo_format (f : float) : string := "0.50".

Definition demo_client : IndraClient := new_client None.

(** A world with the given caller objects and files, before any exchange. *)
Definition demo_world (s0 : server_state) (objects : gmap loc pydict)
    (files : filesystem) : world :=
  World objects files [] s0 [] ∅.

Definition error_answer : reply :=
  Body (JObj [("status", JStr "error"); ("message", JStr "boom")]).

Definition metrics_answer (a b c : Z) : reply :=
  Body (JObj [("status", JStr "ok");
              ("metrics", JObj [("indraIndex", JInt a);
                                ("rimMean", JInt b);
                                ("coherenceMean", JInt c)])]).

Definition healthy_answer : reply := Body (JObj [("status", JStr "ok")]).

Definition render_args : pydict :=
  [("input", JStr "in.png"); ("output", JStr "out.png")].

(** A manifest with two presets of the sought id, around a third one. *)
Definition demo_manifest : json :=
  JObj [("version", JInt 1);
        ("controls",
         JObj [("presets",
                JArr [JObj [("id", JStr "balanced-optics")];
                      JObj [("id", JStr "other");
                            ("panels", JObj [("compositor", JObj [("blend", JInt 0)])])];
                      JObj [("id", JStr "balanced-optics");
                            ("panels", JObj [("grid", JBool true)])]])])].

Definition demo_files : filesystem :=
  {[ MANIFEST_PATH := JsonFile demo_manifest; INPUT_IMAGE := BinaryFile ]}.

(** Three blends, the second of which is answered with an error. *)
Definition demo_script : list reply :=
  [healthy_answer; metrics_answer 1 2 3; error_answer; metrics_answer 7 8 9].

(** Further values for the instances. *)
Definition manifest_args : pydict := [("manifestPath", JStr "manifest.json")].

Definition refused : reply := Unreachable (URLError "refused").

(** A healthy service that answers two renders. *)
Definition all_ok_script : list reply :=
  [healthy_answer; metrics_answer 1 2 3; metrics_answer 4 5 6].

(** * Properties *)

(** ** Dictionaries and strings *)

Lemma eqb_str_refl (k : string) : String.eqb k k = true.
Proof. apply String.eqb_refl. Qed.

Lemma dict_contains_get (k : string) (d : pydict) :
  dict_contains k d = bool_decide (is_Some (dict_get k d)).
Proof.
  induction d as [|[k' v] d IH]; simpl; [reflexivity|].
  destruct (String.eqb k' k); [reflexivity|exact IH].
Qed.

Lemma dict_contains_true (k : string) (d : pydict) :
  dict_contains k d = true <-> exists v, dict_get k d = Some v.
Proof. rewrite dict_contains_get, bool_decide_eq_true. reflexivity. Qed.

Lemma dict_contains_false (k : string) (d : pydict) :
  dict_contains k d = false <-> dict_get k d = None.
Proof.
  rewrite dict_contains_get, bool_decide_eq_false.
  destruct (dict_get k d); split; intros H; try done.
  exfalso. apply H. eauto.
Qed.

Lemma dict_get_set_eq (k : string) (v : json) (d : pydict) :
  dict_get k (dict_set k v d) = Some v.
Proof.
  induction d as [|[k' v'] d IH]; simpl.
  - now rewrite eqb_str_refl.
  - destruct (String.eqb k' k) eqn:E; simpl; rewrite E; auto.
Qed.

Lemma dict_get_set_ne (k k' : string) (v : json) (d : pydict) :
  k <> k' -> dict_get k' (dict_set k v d) = dict_get k' d.
Proof.
  intros Hne. induction d as [|[k0 v0] d IH]; simpl.
  - destruct (String.eqb_spec k k'); congruence.
  - destruct (String.eqb_spec k0 k) as [->|]; simpl.
    + destruct (String.eqb_spec k k'); congruence.
    + destruct (String.eqb_spec k0 k'); auto.
Qed.

Lemma dict_set_same (k : string) (v : json) (d : pydict) :
  dict_get k d = Some v -> dict_set k v d = d.
Proof.
  induction d as [|[k0 v0] d IH]; simpl; [discriminate|].
  destruct (String.eqb k0 k); intros H.
  - congruence.
  - now rewrite IH.
Qed.

Lemma dict_set_keys (k : string) (v : json) (d : pydict) :
  dict_contains k d = true -> map fst (dict_set k v d) = map fst d.
Proof.
  induction d as [|[k0 v0] d IH]; simpl; [discriminate|].
  destruct (String.eqb k0 k); simpl; intros H; [reflexivity|].
  now rewrite IH.
Qed.

Lemma dict_get_without (k0 k : string) (d : pydict) :
  dict_get k (List.filter (fun kv => negb (String.eqb (fst kv) k0)) d)
  = if String.eqb k k0 then None else dict_get k d.
Proof.
  induction d as [|[k' v] d IH]; simpl.
  - now destruct (String.eqb k k0).
  - destruct (String.eqb_spec k' k0) as [->|Hne]; simpl.
    + rewrite IH. rewrite (String.eqb_sym k0 k).
      now destruct (String.eqb k k0).
    + destruct (String.eqb_spec k' k) as [->|Hne'].
      * destruct (String.eqb_spec k k0); congruence.
      * exact IH.
Qed.

Lemma py_eq_str_true (v : option json) (lit : string) :
  py_eq_str v lit = true <-> v = Some (JStr lit).
Proof.
  unfold py_eq_str. destruct v as [[]|]; try (split; [discriminate|congruence]).
  destruct (String.eqb_spec s lit); split; congruence.
Qed.

Lemma prefix_empty (b : string) : String.prefix EmptyString b = true.
Proof. now destruct b. Qed.

Lemma prefix_app (n b : string) : String.prefix n (n ++ b) = true.
Proof.
  induction n as [|c n IH]; [apply prefix_empty|].
  change (String c n ++ b) with (String c (n ++ b)). simpl.
  destruct (ascii_dec c c); [exact IH|congruence].
Qed.

Lemma str_contains_eq (n h : string) :
  str_contains n h
  = (String.prefix n h
     || match h with
        | EmptyString => false
        | String _ h' => str_contains n h'
        end).
Proof. now destruct h. Qed.

Lemma str_contains_here (n b : string) : str_contains n (n ++ b) = true.
Proof. now rewrite str_contains_eq, prefix_app. Qed.

Lemma append_empty_r (n : string) : n ++ EmptyString = n.
Proof.
  induction n as [|c n IH]; [reflexivity|].
  change (String c (n ++ EmptyString) = String c n). now rewrite IH.
Qed.

Lemma str_contains_self (n : string) : str_contains n n = true.
Proof.
  assert (H := str_contains_here n EmptyString).
  now rewrite append_empty_r in H.
Qed.

Lemma str_contains_app_r (n a b : string) :
  str_contains n b = true -> str_contains n (a ++ b) = true.
Proof.
  intros H. induction a as [|c a IH]; [exact H|].
  change (String c a ++ b) with (String c (a ++ b)).
  rewrite str_contains_eq, IH. apply orb_true_r.
Qed.

Lemma str_contains_join (sep k : string) (parts : list string) :
  In k parts -> str_contains k (join sep parts) = true.
Proof.
  induction parts as [|q parts IH]; simpl; [tauto|].
  intros [->|Hin].
  - destruct parts; [apply str_contains_self|apply str_contains_here].
  - destruct parts as [|q' parts]; [destruct Hin|].
    apply str_contains_app_r, str_contains_app_r, IH, Hin.
Qed.

(** ** Running the client *)

Lemma world_eta (w : world) :
  World (heap w) (fs w) (net w) (srv w) (sink w) (dirs w) = w.
Proof. now destruct w. Qed.

Lemma exchange_run (req : request) (w : world) :
  exchange req w = (Ok (reply_to req w), after_exchange req w).
Proof.
  unfold exchange, after_exchange, reply_to.
  now destruct (serve (srv w) req (fs w)) as [[s' r] files].
Qed.

Lemma _request_post_run (self : IndraClient) (path : string) (p : loc)
    (d : pydict) (w : world) :
  heap w !! p = Some d ->
  _request self "POST" path (Some p) w
  = (decode (reply_to (post_request self path d) w),
     after_exchange (post_request self path d) w).
Proof.
  intros H. unfold _request, bind, deref, ret. rewrite H.
  fold (post_request self path d). rewrite exchange_run.
  now destruct (reply_to _ w).
Qed.

Lemma _request_get_run (self : IndraClient) (path : string) (w : world) :
  _request self "GET" path None w
  = (decode (reply_to (Request "GET" (_base_url self ++ path) None []) w),
     after_exchange (Request "GET" (_base_url self ++ path) None []) w).
Proof.
  unfold _request, bind, ret. rewrite exchange_run.
  now destruct (reply_to _ w).
Qed.

Lemma _require_keys_run (p : loc) (d : pydict) (keys : list string)
    (operation : string) (w : world) :
  heap w !! p = Some d ->
  _require_keys p keys operation w
  = (match List.filter (fun key => negb (dict_contains key d)) keys with
     | [] => Ok tt
     | missing =>
         Raise (ValueError (operation ++ " requires keys: " ++ join ", " missing))
     end, w).
Proof.
  intros H. unfold _require_keys, bind, deref. rewrite H.
  now destruct (List.filter _ keys).
Qed.

Lemma render_run (self : IndraClient) (p : loc) (d : pydict) (w : world) :
  heap w !! p = Some d ->
  render self p w
  = match List.filter (fun key => negb (dict_contains key d)) ["input"; "output"] with
    | [] =>
        let d' := fst (dict_setdefault "bitDepth" (JInt 8) d) in
        let w1 := set_heap (<[p := d']> (heap w)) w in
        (rbind (decode (reply_to (post_request self "/render" d') w1)) _expect_ok,
         after_exchange (post_request self "/render" d') w1)
    | missing =>
        (Raise (ValueError ("render requires keys: " ++ join ", " missing)), w)
    end.
Proof.
  intros H. unfold render. unfold bind at 1.
  rewrite (_require_keys_run _ d) by exact H.
  destruct (List.filter _ _) as [|k ks]; [|reflexivity].
  unfold bind at 1. unfold setdefault_at, bind, deref, store, ret. rewrite H.
  destruct (dict_setdefault "bitDepth" (JInt 8) d) as [d' v] eqn:E. simpl.
  rewrite (_request_post_run _ _ _ d') by (simpl; apply lookup_insert_eq).
  unfold lift. now destruct (decode _).
Qed.

Lemma posting_run (self : IndraClient) (keys : list string) (name path : string)
    (p : loc) (d : pydict) (w : world) :
  heap w !! p = Some d ->
  (_require_keys p keys name ;;
   response <- _request self "POST" path (Some p) ;;
   lift (_expect_ok response)) w
  = match List.filter (fun key => negb (dict_contains key d)) keys with
    | [] =>
        (rbind (decode (reply_to (post_request self path d) w)) _expect_ok,
         after_exchange (post_request self path d) w)
    | missing =>
        (Raise (ValueError (name ++ " requires keys: " ++ join ", " missing)), w)
    end.
Proof.
  intros H. unfold bind at 1.
  rewrite (_require_keys_run _ d) by exact H.
  destruct (List.filter _ _) as [|k ks]; [|reflexivity].
  unfold bind. rewrite (_request_post_run _ _ _ d) by exact H.
  unfold lift. now destruct (decode _).
Qed.

Lemma validate_manifest_run (self : IndraClient) (p : loc) (d : pydict) (w : world) :
  heap w !! p = Some d ->
  validate_manifest self p w
  = if negb (dict_contains "manifest" d) && negb (dict_contains "manifestPath" d)
    then (Raise (ValueError ("manifest validation requires " ++ quoted "manifest"
                               ++ " or " ++ quoted "manifestPath" ++ ".")), w)
    else (rbind (decode (reply_to (post_request self "/manifest/validate" d) w))
                _expect_ok,
          after_exchange (post_request self "/manifest/validate" d) w).
Proof.
  intros H. unfold validate_manifest, bind at 1. unfold deref. rewrite H.
  destruct (negb _ && negb _); [reflexivity|].
  unfold bind. rewrite (_request_post_run _ _ _ d) by exact H.
  unfold lift. now destruct (decode _).
Qed.

Lemma net_after_exchange (req : request) (w : world) :
  net (after_exchange req w) = (net w ++ [(req, reply_to req w)])%list.
Proof. reflexivity. Qed.

Lemma net_grows_absurd (A : Type) (l : list A) (x : A) : l <> (l ++ [x])%list.
Proof.
  intros H. apply (f_equal (@length A)) in H.
  rewrite length_app in H. simpl in H. lia.
Qed.

(** The reply of the one exchange a run added to the log. *)
Ltac answered H :=
  rewrite net_after_exchange in H; simpl in H;
  apply app_inj_tail in H as [_ H]; injection H as _ ->; reflexivity.

(** A call that was answered with the JSON value [j] has the outcome of
    [_expect_ok j], whichever of the four operations it is. *)
Lemma call_answered (op : operation) (self : IndraClient) (p : loc)
    (d : pydict) (w w' : world) (r : result pydict) (req : request) (j : json) :
  heap w !! p = Some d ->
  call op self p w = (r, w') ->
  net w' = (net w ++ [(req, Body j)])%list ->
  r = _expect_ok j.
Proof.
  intros Hp Hrun Hnet.
  destruct op; simpl in Hrun;
    [ rewrite (render_run _ _ d) in Hrun by exact Hp
    | unfold simulate in Hrun; rewrite (posting_run _ _ _ _ _ d) in Hrun by exact Hp
    | unfold capture in Hrun; rewrite (posting_run _ _ _ _ _ d) in Hrun by exact Hp
    | rewrite (validate_manifest_run _ _ d) in Hrun by exact Hp ];
    match type of Hrun with
    | context [List.filter ?f ?l] => destruct (List.filter f l)
    | context [negb ?a && negb ?b] => destruct (negb a && negb b)
    end;
    simpl in Hrun; injection Hrun as <- <-;
    first [ now apply net_grows_absurd in Hnet | answered Hnet ].
Qed.

Lemma call_dangling (op : operation) (self : IndraClient) (p : loc) (w : world) :
  heap w !! p = None -> call op self p w = (Raise InvalidRef, w).
Proof.
  intros H.
  destruct op; simpl;
    unfold render, simulate, capture, validate_manifest, _require_keys;
    unfold bind, deref; now rewrite H.
Qed.

Lemma _expect_ok_object (resp : pydict) :
  _expect_ok (JObj resp)
  = if py_eq_str (dict_get "status" resp) "ok"
    then Ok (List.filter (fun kv => negb (String.eqb (fst kv) "status")) resp)
    else Raise (RuntimeError
                  (py_str (default (JStr "Unknown error") (dict_get "message" resp)))).
Proof.
  unfold _expect_ok. simpl.
  now destruct (py_eq_str (dict_get "status" resp) "ok").
Qed.

(** ** The client: response handling *)

(** C1 — Whichever of render, simulate, capture and validate_manifest is
    called, when the service answers with a JSON object [resp]: if the
    status of [resp] is absent or is not the string ok, the call raises
    RuntimeError with the message field of [resp] as its text (through
    [str] when it is not a string) or with the placeholder Unknown error
    when there is no message field; if the status is ok, the call returns
    [resp] without its status entry, every other entry being looked up as
    in [resp]. *)
Theorem expect_ok_discrimination (op : operation) (self : IndraClient)
    (p : loc) (w w' : world) (r : result pydict) (req : request) (resp : pydict) :
  call op self p w = (r, w') ->
  net w' = (net w ++ [(req, Body (JObj resp))])%list ->
  (dict_get "status" resp <> Some (JStr "ok") ->
   r = Raise (RuntimeError
                match dict_get "message" resp with
                | Some (JStr s) => s
                | Some m => str_value m
                | None => "Unknown error"
                end))
  /\ (dict_get "status" resp = Some (JStr "ok") ->
      exists items,
        r = Ok items
        /\ items = List.filter (fun kv => negb (String.eqb (fst kv) "status")) resp
        /\ forall k, dict_get k items
                     = if String.eqb k "status" then None else dict_get k resp).
Proof.
  intros Hrun Hnet.
  assert (Hr : r = _expect_ok (JObj resp)).
  { destruct (heap w !! p) as [d|] eqn:Hp.
    - exact (call_answered op self p d w w' r req _ Hp Hrun Hnet).
    - rewrite (call_dangling op self p w Hp) in Hrun.
      injection Hrun as <- <-. now apply net_grows_absurd in Hnet. }
  rewrite _expect_ok_object in Hr. split.
  - intros Hst.
    destruct (py_eq_str (dict_get "status" resp) "ok") eqn:E.
    + apply py_eq_str_true in E. contradiction.
    + rewrite Hr. unfold py_str.
      now destruct (dict_get "message" resp) as [[]|].
  - intros Hst.
    assert (E : py_eq_str (dict_get "status" resp) "ok" = true)
      by now apply py_eq_str_true.
    rewrite E in Hr. eexists. split; [exact Hr|]. split; [reflexivity|].
    intros k. apply dict_get_without.
Qed.

(** ** The client: validation *)

Lemma filter_missing_nonempty (d : pydict) (keys : list string) (key : string) :
  In key keys -> dict_contains key d = false ->
  In key (List.filter (fun k => negb (dict_contains k d)) keys).
Proof.
  intros Hin Hc. apply filter_In. split; [exact Hin|]. now rewrite Hc.
Qed.

Lemma filter_missing_ext (d d2 : pydict) (keys : list string) :
  (forall k, dict_contains k d2 = dict_contains k d) ->
  List.filter (fun k => negb (dict_contains k d2)) keys
  = List.filter (fun k => negb (dict_contains k d)) keys.
Proof.
  intros H. apply List.filter_ext. intros k. now rewrite H.
Qed.

(** A required key that is absent makes the list of missing keys non-empty. *)
Ltac missing_key Hl d :=
  let key := fresh "key" in
  let Hin := fresh "Hin" in
  let Hc := fresh "Hc" in
  let Hm := fresh "Hm" in
  destruct Hl as (key & Hin & Hc);
  pose proof (filter_missing_nonempty d _ key Hin Hc) as Hm;
  destruct (List.filter _ _); [destruct Hm|reflexivity].

(** What a call does on a payload that lacks a required key. *)
Lemma call_rejected (op : operation) (self : IndraClient) (p : loc)
    (d : pydict) (w : world) :
  heap w !! p = Some d ->
  lacks_required op d ->
  call op self p w
  = (Raise (ValueError
       match op with
       | ValidateManifest =>
           "manifest validation requires " ++ quoted "manifest"
             ++ " or " ++ quoted "manifestPath" ++ "."
       | _ =>
           op_name op ++ " requires keys: "
             ++ join ", " (List.filter (fun k => negb (dict_contains k d))
                                       (required_keys op))
       end), w).
Proof.
  intros Hp Hl.
  destruct op; unfold lacks_required in Hl;
    unfold call, op_name, required_keys in *.
  - rewrite (render_run _ _ d) by exact Hp. missing_key Hl d.
  - unfold simulate. rewrite (posting_run _ _ _ _ _ d) by exact Hp.
    missing_key Hl d.
  - unfold capture. rewrite (posting_run _ _ _ _ _ d) by exact Hp.
    missing_key Hl d.
  - rewrite (validate_manifest_run _ _ d) by exact Hp.
    now destruct Hl as [-> ->].
Qed.

(** C2 (amended) — A call of render, simulate, capture or
    validate_manifest on a payload that lacks a required key (for
    validate_manifest: both manifest and manifestPath) raises ValueError
    and leaves the world as it was, so nothing was sent. For render,
    simulate and capture the message is the operation name, the words
    requires keys and the missing keys joined by commas, and so contains
    the operation name and every missing key; for validate_manifest it is
    one fixed sentence that names both keys. The outcome is the same for
    any payload with the same keys, whatever the values. *)
Theorem validation_before_network (op : operation) (self : IndraClient)
    (p : loc) (d : pydict) (w : world) :
  heap w !! p = Some d ->
  lacks_required op d ->
  exists msg,
    call op self p w = (Raise (ValueError msg), w)
    /\ match op with
       | ValidateManifest =>
           msg = "manifest validation requires " ++ quoted "manifest"
                   ++ " or " ++ quoted "manifestPath" ++ "."
           /\ str_contains "manifest" msg = true
           /\ str_contains "manifestPath" msg = true
       | _ =>
           msg = op_name op ++ " requires keys: "
                   ++ join ", " (List.filter (fun k => negb (dict_contains k d))
                                             (required_keys op))
           /\ str_contains (op_name op) msg = true
           /\ forall key, In key (required_keys op) ->
                          dict_contains key d = false ->
                          str_contains key msg = true
       end
    /\ forall (p2 : loc) (d2 : pydict) (w2 : world),
         heap w2 !! p2 = Some d2 ->
         (forall k, dict_contains k d2 = dict_contains k d) ->
         call op self p2 w2 = (Raise (ValueError msg), w2).
Proof.
  intros Hp Hl. eexists. split; [exact (call_rejected op self p d w Hp Hl)|].
  split.
  - destruct op; try (split; [reflexivity|split; [apply str_contains_here|]]);
      try (intros key Hin Hc;
           apply str_contains_app_r, str_contains_app_r, str_contains_join;
           now apply filter_missing_nonempty).
    split; [reflexivity|]. split; reflexivity.
  - intros p2 d2 w2 Hp2 Hsame.
    assert (Hl2 : lacks_required op d2).
    { destruct op; unfold lacks_required in *; rewrite ?Hsame; try exact Hl;
        destruct Hl as (key & Hin & Hc); exists key; now rewrite Hsame. }
    rewrite (call_rejected op self p2 d2 w2 Hp2 Hl2).
    destruct op; try reflexivity; now rewrite (filter_missing_ext d d2).
Qed.

(** C9 — render on a payload without input or without output raises its
    ValueError before the bitDepth default is applied: the world, and with
    it the caller's payload object, is exactly as before the call. *)
Theorem render_validation_atomic (self : IndraClient) (p : loc) (d : pydict)
    (w : world) :
  heap w !! p = Some d ->
  dict_contains "input" d = false \/ dict_contains "output" d = false ->
  exists msg,
    render self p w = (Raise (ValueError msg), w)
    /\ heap (snd (render self p w)) !! p = Some d.
Proof.
  intros Hp Hmiss.
  assert (Hl : lacks_required Render d).
  { destruct Hmiss as [H|H]; [exists "input"|exists "output"];
      (split; [simpl; tauto|exact H]). }
  pose proof (call_rejected Render self p d w Hp Hl) as Hrun. simpl in Hrun.
  eexists. split; [exact Hrun|]. now rewrite Hrun.
Qed.

(** ** The client: the bitDepth default *)

Lemma dict_set_absent (k : string) (v : json) (d : pydict) :
  dict_get k d = None -> dict_set k v d = (d ++ [(k, v)])%list.
Proof.
  induction d as [|[k0 v0] d IH]; simpl; [reflexivity|].
  destruct (String.eqb k0 k); [discriminate|].
  intros H. now rewrite IH.
Qed.

Lemma setdefault_absent (k : string) (v : json) (d : pydict) :
  dict_get k d = None ->
  dict_setdefault k v d = ((d ++ [(k, v)])%list, v).
Proof.
  intros H. unfold dict_setdefault. rewrite H. now rewrite dict_set_absent.
Qed.

Lemma setdefault_present (k : string) (v v' : json) (d : pydict) :
  dict_get k d = Some v' -> dict_setdefault k v d = (d, v').
Proof. intros H. unfold dict_setdefault. now rewrite H. Qed.

Lemma setdefault_get (k : string) (v : json) (d : pydict) :
  dict_get k (fst (dict_setdefault k v d)) = Some (default v (dict_get k d)).
Proof.
  unfold dict_setdefault. destruct (dict_get k d) eqn:E; simpl; [exact E|].
  apply dict_get_set_eq.
Qed.

Lemma setdefault_get_ne (k k' : string) (v : json) (d : pydict) :
  k <> k' -> dict_get k' (fst (dict_setdefault k v d)) = dict_get k' d.
Proof.
  intros Hne. unfold dict_setdefault.
  destruct (dict_get k d); simpl; [reflexivity|].
  now apply dict_get_set_ne.
Qed.

Lemma render_accepted (self : IndraClient) (p : loc) (d : pydict) (w : world) :
  heap w !! p = Some d ->
  dict_contains "input" d = true ->
  dict_contains "output" d = true ->
  render self p w
  = let d' := fst (dict_setdefault "bitDepth" (JInt 8) d) in
    let w1 := set_heap (<[p := d']> (heap w)) w in
    (rbind (decode (reply_to (post_request self "/render" d') w1)) _expect_ok,
     after_exchange (post_request self "/render" d') w1).
Proof.
  intros Hp Hi Ho. rewrite (render_run _ _ d) by exact Hp.
  simpl. now rewrite Hi, Ho.
Qed.

(** C8 — render on a payload that has input and output sends one POST to
    the render path whose body has bitDepth 8 when the payload had no
    bitDepth, is the payload itself when it had one, and agrees with the
    payload on every other key. *)
Theorem render_bit_depth_default (self : IndraClient) (p : loc) (d : pydict)
    (w : world) :
  heap w !! p = Some d ->
  dict_contains "input" d = true ->
  dict_contains "output" d = true ->
  exists (body : pydict) (answer : reply),
    net (snd (render self p w))
    = (net w ++ [(post_request self "/render" body, answer)])%list
    /\ (dict_get "bitDepth" d = None -> dict_get "bitDepth" body = Some (JInt 8))
    /\ (forall v, dict_get "bitDepth" d = Some v -> body = d)
    /\ (forall k, k <> "bitDepth" -> dict_get k body = dict_get k d).
Proof.
  intros Hp Hi Ho. rewrite (render_accepted self p d w Hp Hi Ho).
  eexists. eexists. split; [reflexivity|]. split; [|split].
  - intros Hnone. now rewrite setdefault_get, Hnone.
  - intros v Hv. now rewrite (setdefault_present _ _ v).
  - intros k Hk. apply setdefault_get_ne. congruence.
Qed.

(** C3 (amended) — simulate, capture and validate_manifest leave the
    caller's payload object as it was. render leaves it as it was when
    validation fails or when it already has a bitDepth; on a payload with
    input and output and no bitDepth it adds the entry bitDepth 8 to the
    caller's own object, at the end, and changes nothing else. No call
    touches any other object. *)
Theorem payload_after_call (op : operation) (self : IndraClient) (p : loc)
    (d : pydict) (w : world) :
  heap w !! p = Some d ->
  (forall q, q <> p -> heap (snd (call op self p w)) !! q = heap w !! q)
  /\ match op with
     | Render =>
         (lacks_required Render d \/ dict_contains "bitDepth" d = true ->
          heap (snd (call op self p w)) !! p = Some d)
         /\ (dict_contains "input" d = true ->
             dict_contains "output" d = true ->
             dict_contains "bitDepth" d = false ->
             heap (snd (call op self p w)) !! p
             = Some (d ++ [("bitDepth", JInt 8)])%list)
     | _ => heap (snd (call op self p w)) !! p = Some d
     end.
Proof.
  intros Hp.
  assert (Hposting : forall keys name path,
             heap (snd ((_require_keys p keys name ;;
                         response <- _request self "POST" path (Some p) ;;
                         lift (_expect_ok response)) w)) = heap w).
  { intros. rewrite (posting_run _ _ _ _ _ d) by exact Hp.
    now destruct (List.filter _ _). }
  destruct op; simpl.
  - rewrite (render_run _ _ d) by exact Hp.
    destruct (List.filter _ _) eqn:Hf.
    + simpl. split; [intros q Hq; now apply lookup_insert_ne|].
      rewrite lookup_insert_eq. split.
      * intros [Hl|Hb].
        -- destruct Hl as (key & Hin & Hc).
           pose proof (filter_missing_nonempty d ["input"; "output"] key Hin Hc) as Hm.
           rewrite Hf in Hm. destruct Hm.
        -- apply dict_contains_true in Hb as [v Hv].
           now rewrite (setdefault_present _ _ v).
      * intros _ _ Hb. apply dict_contains_false in Hb.
        now rewrite setdefault_absent.
    + simpl. split; [reflexivity|]. split; [intros _; exact Hp|].
      intros Hi Ho _. simpl in Hf. rewrite Hi, Ho in Hf. discriminate.
  - unfold simulate. rewrite Hposting. split; [reflexivity|exact Hp].
  - unfold capture. rewrite Hposting. split; [reflexivity|exact Hp].
  - rewrite (validate_manifest_run _ _ d) by exact Hp.
    destruct (negb _ && negb _); simpl; (split; [reflexivity|exact Hp]).
Qed.

(** ** The client: health *)

Lemma health_run (self : IndraClient) (w : world) :
  health self w
  = (match reply_to (health_request self) w with
     | Unreachable _ | NonJson => Ok false
     | Body (JObj d) => Ok (py_eq_str (dict_get "status" d) "ok")
     | Body _ => Raise AttributeError
     end, after_exchange (health_request self) w).
Proof.
  unfold health, bind, attempt. rewrite _request_get_run.
  fold (health_request self).
  destruct (reply_to (health_request self) w) as [e| |j]; try reflexivity.
  now destruct j.
Qed.

(** C4 — When the service answers the health probe with a JSON value that
    is not an object (a list, a string, a number, true, false or null),
    [health] raises AttributeError instead of returning false: the lookup
    of the status is outside the [try]. *)
Theorem health_raises_on_non_object (self : IndraClient) (w : world) (j : json) :
  reply_to (health_request self) w = Body j ->
  (forall d, j <> JObj d) ->
  fst (health self w) = Raise AttributeError.
Proof.
  intros Hr Hj. rewrite health_run, Hr. simpl.
  destruct j; try reflexivity. now destruct (Hj kvs).
Qed.

(** ** The sweep: deriving a manifest *)

Lemma json_at_set_eq (k : string) (rest : list string) (v : json) (d : pydict) :
  json_at (k :: rest) (JObj (dict_set k v d)) = json_at rest v.
Proof. simpl. now rewrite dict_get_set_eq. Qed.

Lemma json_at_set_ne (k k' : string) (rest : list string) (v : json) (d : pydict) :
  k <> k' ->
  json_at (k' :: rest) (JObj (dict_set k v d)) = json_at (k' :: rest) (JObj d).
Proof. intros H. simpl. now rewrite dict_get_set_ne. Qed.

Lemma json_at_key (k : string) (d : pydict) : json_at [k] (JObj d) = dict_get k d.
Proof. simpl. now destruct (dict_get k d). Qed.

Lemma dict_set_keys_absent (k : string) (v : json) (d : pydict) :
  dict_contains k d = false -> map fst (dict_set k v d) = (map fst d ++ [k])%list.
Proof.
  intros H. apply dict_contains_false in H.
  rewrite dict_set_absent by exact H. now rewrite map_app.
Qed.

Lemma mutate_preset_other (blend : float) (preset : json) :
  wf_preset preset = true -> is_target preset = false ->
  mutate_preset blend preset = Ok preset.
Proof.
  intros Hwf Ht. destruct preset; try discriminate.
  unfold mutate_preset. simpl. unfold is_target in Ht.
  rewrite json_at_key in Ht. now rewrite Ht.
Qed.

Lemma mutate_preset_target (blend : float) (preset : json) :
  wf_preset preset = true -> is_target preset = true ->
  exists preset',
    mutate_preset blend preset = Ok preset'
    /\ preset_frame preset preset'
    /\ json_at ["panels"; "compositor"; "blend"] preset' = Some (JFloat blend)
    /\ (json_at ["panels"] preset = None ->
        json_at ["panels"] preset'
        = Some (JObj [("compositor", JObj [("blend", JFloat blend)])]))
    /\ (json_at ["panels"; "compositor"] preset = None ->
        json_at ["panels"; "compositor"] preset'
        = Some (JObj [("blend", JFloat blend)])).
Proof.
  intros Hwf Ht. destruct preset as [| | | | | |d]; try discriminate.
  unfold wf_preset in Hwf. rewrite Ht in Hwf.
  unfold mutate_preset, preset_frame. rewrite Ht. simpl py_get. unfold rbind.
  unfold is_target in Ht. rewrite json_at_key in Ht. rewrite Ht.
  unfold dict_setdefault.
  destruct (dict_get "panels" d) as [panels|] eqn:Hp.
  - destruct panels as [| | | | | |pd]; try discriminate.
    assert (Hc : dict_contains "panels" d = true)
      by (apply dict_contains_true; eauto).
    rewrite Hc.
    destruct (dict_get "compositor" pd) as [comp|] eqn:Hcomp.
    + destruct comp as [| | | | | |cd]; try discriminate.
      eexists. split; [reflexivity|]. repeat split.
      * simpl. now apply dict_set_keys.
      * intros k Hk. now rewrite json_at_set_ne by congruence.
      * intros k Hk. rewrite json_at_set_eq.
        rewrite json_at_set_ne by congruence. simpl. now rewrite Hp.
      * intros k Hk. rewrite !json_at_set_eq.
        rewrite json_at_set_ne by congruence. simpl. now rewrite Hp, Hcomp.
      * now rewrite !json_at_set_eq.
      * simpl. rewrite Hp. discriminate.
      * simpl. rewrite Hp, Hcomp. discriminate.
    + eexists. split; [reflexivity|]. repeat split.
      * simpl. now apply dict_set_keys.
      * intros k Hk. now rewrite json_at_set_ne by congruence.
      * intros k Hk. rewrite json_at_set_eq.
        rewrite !json_at_set_ne by congruence. simpl. now rewrite Hp.
      * intros k Hk. rewrite !json_at_set_eq.
        rewrite json_at_set_ne by congruence. simpl. now rewrite Hp, Hcomp.
      * now rewrite !json_at_set_eq.
      * simpl. rewrite Hp. discriminate.
      * intros _. now rewrite !json_at_set_eq.
  - assert (Hc : dict_contains "panels" d = false)
      by now apply dict_contains_false.
    rewrite Hc. simpl dict_get.
    eexists. split; [reflexivity|]. repeat split.
    + simpl. rewrite dict_set_keys; [now apply dict_set_keys_absent|].
      apply dict_contains_true. rewrite dict_get_set_eq. eauto.
    + intros k Hk. rewrite !json_at_set_ne by congruence. reflexivity.
    + intros k Hk. rewrite json_at_set_eq.
      rewrite !json_at_set_ne by congruence. simpl. now rewrite Hp.
    + intros k Hk. rewrite !json_at_set_eq.
      rewrite json_at_set_ne by congruence. simpl. now rewrite Hp.
    + now rewrite !json_at_set_eq.
    + intros _. now rewrite json_at_set_eq.
    + intros _. now rewrite !json_at_set_eq.
Qed.

Lemma for_each_presets (blend : float) (ps : list json) :
  forallb wf_preset ps = true ->
  exists ps',
    for_each (mutate_preset blend) ps = Ok ps'
    /\ Forall2 preset_frame ps ps'
    /\ Forall2 (blend_set blend) ps ps'.
Proof.
  induction ps as [|q ps IH]; simpl; intros Hwf.
  - exists []. repeat split; constructor.
  - apply andb_true_iff in Hwf as [Hq Hps].
    destruct (IH Hps) as (ps' & Hrun & Hframe & Hset). rewrite Hrun.
    destruct (is_target q) eqn:Ht.
    + destruct (mutate_preset_target blend q Hq Ht)
        as (q' & Hq' & Hfr & Hb & Hpan & Hcomp).
      rewrite Hq'. exists (q' :: ps'). repeat split.
      * now constructor.
      * constructor; [|exact Hset]. intros _. auto.
    + rewrite (mutate_preset_other blend q Hq Ht).
      exists (q :: ps'). repeat split.
      * constructor; [|exact Hframe]. unfold preset_frame. now rewrite Ht.
      * constructor; [|exact Hset]. intros Ht'. congruence.
Qed.

Lemma for_each_no_target (blend : float) (ps : list json) :
  forallb wf_preset ps = true ->
  existsb is_target ps = false ->
  for_each (mutate_preset blend) ps = Ok ps.
Proof.
  induction ps as [|q ps IH]; simpl; intros Hwf Hno; [reflexivity|].
  apply andb_true_iff in Hwf as [Hq Hps].
  apply orb_false_iff in Hno as [Ht Hno].
  now rewrite (mutate_preset_other blend q Hq Ht), (IH Hps Hno).
Qed.

Lemma manifest_frame_same (doc : json) :
  (forall ps, json_at ["controls"; "presets"] doc <> Some (JArr ps)) ->
  manifest_frame doc doc.
Proof.
  intros H. unfold manifest_frame. repeat split; eauto.
  destruct (json_at ["controls"; "presets"] doc) as [[]|] eqn:E; try reflexivity.
  now destruct (H xs).
Qed.

(** What lines 24 to 27 do to a well-formed manifest. *)
Lemma mutate_data_wf (blend : float) (doc : json) :
  wf_manifest doc = true ->
  exists doc',
    mutate_data blend doc = Ok doc'
    /\ manifest_frame doc doc'
    /\ (exists ps', presets_of doc' = ps'
                    /\ Forall2 (blend_set blend) (presets_of doc) ps')
    /\ (existsb is_target (presets_of doc) = false -> doc' = doc).
Proof.
  intros Hwf. destruct doc as [| | | | | |d]; try discriminate.
  unfold wf_manifest in Hwf. unfold mutate_data, presets_of.
  simpl py_get_default. unfold rbind at 1.
  destruct (dict_get "controls" d) as [controls|] eqn:Hc.
  - destruct controls as [| | | | | |c]; try discriminate.
    assert (Hcc : dict_contains "controls" d = true)
      by (apply dict_contains_true; eauto).
    simpl default. simpl py_get_default. unfold rbind at 1.
    destruct (dict_get "presets" c) as [presets|] eqn:Hp.
    + assert (Hcp : dict_contains "presets" c = true)
        by (apply dict_contains_true; eauto).
      destruct presets as [| | | |[|? ?]|ps|[|? ?]]; try discriminate.
      * simpl. eexists. split; [reflexivity|]. split; [|split; [|reflexivity]].
        -- apply manifest_frame_same. intros ps. simpl. now rewrite Hc, Hp.
        -- simpl json_at. rewrite Hc, Hp.
           exists []. split; [reflexivity|constructor].
      * destruct (for_each_presets blend ps Hwf) as (ps' & Hrun & Hframe & Hset).
        simpl. rewrite Hrun. simpl. rewrite Hcc, Hcp. simpl.
        eexists. split; [reflexivity|].
        unfold manifest_frame. simpl json_at.
        rewrite Hc, Hp, !dict_get_set_eq. split; [|split].
        -- split; [now apply dict_set_keys|]. split; [|split; [|split]].
           ++ intros k Hk. now rewrite dict_get_set_ne by congruence.
           ++ intros c0 Hc0. injection Hc0 as <-. eexists. split; [reflexivity|].
              simpl. now apply dict_set_keys.
           ++ intros k Hk. now rewrite dict_get_set_ne by congruence.
           ++ exists ps'. split; [reflexivity|exact Hframe].
        -- exists ps'. split; [reflexivity|exact Hset].
        -- intros Hno. simpl in Hno.
           rewrite (for_each_no_target blend ps Hwf Hno) in Hrun.
           injection Hrun as <-.
           rewrite (dict_set_same "presets" (JArr ps) c Hp).
           now rewrite (dict_set_same "controls" (JObj c) d Hc).
      * simpl. eexists. split; [reflexivity|]. split; [|split; [|reflexivity]].
        -- apply manifest_frame_same. intros ps. simpl. now rewrite Hc, Hp.
        -- simpl json_at. rewrite Hc, Hp.
           exists []. split; [reflexivity|constructor].
    + simpl. rewrite Hcc.
      assert (Hcp : dict_contains "presets" c = false)
        by now apply dict_contains_false.
      rewrite Hcp. simpl. eexists. split; [reflexivity|].
      split; [|split; [|reflexivity]].
      * apply manifest_frame_same. intros ps. simpl. now rewrite Hc, Hp.
      * simpl json_at. rewrite Hc, Hp.
        exists []. split; [reflexivity|constructor].
  - assert (Hcc : dict_contains "controls" d = false)
      by now apply dict_contains_false.
    simpl. rewrite Hcc. simpl. eexists. split; [reflexivity|].
    split; [|split; [|reflexivity]].
    + apply manifest_frame_same. intros ps. simpl. now rewrite Hc.
    + simpl json_at. rewrite Hc.
      exists []. split; [reflexivity|constructor].
Qed.

Lemma mutate_preset_ok_wf (blend : float) (preset preset' : json) :
  mutate_preset blend preset = Ok preset' -> wf_preset preset = true.
Proof.
  destruct preset as [| | | | | |d]; try discriminate.
  unfold mutate_preset, wf_preset, is_target. rewrite json_at_key. simpl.
  destruct (py_eq_str (dict_get "id" d) "balanced-optics"); [|reflexivity].
  unfold dict_setdefault.
  destruct (dict_get "panels" d) as [[| | | | | |pd]|]; try discriminate;
    [|reflexivity].
  now destruct (dict_get "compositor" pd) as [[]|].
Qed.

Lemma for_each_ok_wf (blend : float) (ps ps' : list json) :
  for_each (mutate_preset blend) ps = Ok ps' -> forallb wf_preset ps = true.
Proof.
  revert ps'. induction ps as [|q ps IH]; simpl; intros ps' H; [reflexivity|].
  destruct (mutate_preset blend q) as [q'|] eqn:Hq; [|discriminate].
  destruct (for_each (mutate_preset blend) ps) as [qs|] eqn:Hps; [|discriminate].
  now rewrite (mutate_preset_ok_wf blend q q' Hq), (IH qs).
Qed.

(** The loop returns exactly on the documents it can work on. *)
Lemma mutate_data_ok_wf (blend : float) (doc doc' : json) :
  mutate_data blend doc = Ok doc' -> wf_manifest doc = true.
Proof.
  destruct doc as [| | | | | |d]; try discriminate.
  unfold mutate_data, wf_manifest. simpl py_get_default. unfold rbind at 1.
  destruct (dict_get "controls" d) as [[| | | | | |c]|]; try discriminate;
    [|reflexivity].
  simpl default. simpl py_get_default. unfold rbind at 1.
  destruct (dict_get "presets" c) as [[| | | |[|? ?]|ps|[|[? ?] ?]]|];
    try discriminate; try reflexivity.
  simpl py_iter. unfold rbind.
  destruct (for_each (mutate_preset blend) ps) as [ps'|] eqn:E; [|discriminate].
  intros _. exact (for_each_ok_wf blend ps ps' E).
Qed.

Lemma mutate_manifest_run (blend : float) (doc doc' : json) (w : world) :
  fs w !! MANIFEST_PATH = Some (JsonFile doc) ->
  mutate_data blend doc = Ok doc' ->
  mutate_manifest blend w
  = (Ok (mktemp (fs w)), set_fs (<[mktemp (fs w) := JsonFile doc']> (fs w)) w).
Proof.
  intros Hf Hd. unfold mutate_manifest, bind, read_json, lift, write_temp_json, ret.
  now rewrite Hf, Hd.
Qed.

(** [mutate_manifest] either raises and leaves the world as it was, or
    writes one new file and returns its path. *)
Lemma mutate_manifest_cases (blend : float) (w : world) :
  (exists e, mutate_manifest blend w = (Raise e, w))
  \/ (exists doc', mutate_manifest blend w
                   = (Ok (mktemp (fs w)),
                      set_fs (<[mktemp (fs w) := JsonFile doc']> (fs w)) w)).
Proof.
  unfold mutate_manifest, bind, read_json, lift, write_temp_json, ret.
  destruct (fs w !! MANIFEST_PATH) as [[doc| | |]|]; eauto.
  destruct (mutate_data blend doc); eauto.
Qed.

(** C7 — For every document in the manifest file: on a document the loop
    cannot work on, [mutate_manifest] raises and changes nothing; on any
    other, and so on every manifest as the specification describes it, the
    document it writes differs from the one on disk only in the blend
    under panels.compositor of the presets whose id is balanced-optics
    (the same keys, and the same values everywhere else, preset by
    preset); it is written to a new file, the manifest file and every
    other existing file keep their contents, and when no preset has that
    id the document written is the original one. *)
Theorem manifest_mutation_scoped (blend : float) (doc : json) (w : world) :
  fs w !! MANIFEST_PATH = Some (JsonFile doc) ->
  if wf_manifest doc then
    exists tmp doc',
      mutate_manifest blend w
      = (Ok tmp, set_fs (<[tmp := JsonFile doc']> (fs w)) w)
      /\ fs w !! tmp = None
      /\ manifest_frame doc doc'
      /\ fs (snd (mutate_manifest blend w)) !! MANIFEST_PATH = Some (JsonFile doc)
      /\ (forall path, path <> tmp ->
                       fs (snd (mutate_manifest blend w)) !! path = fs w !! path)
      /\ (existsb is_target (presets_of doc) = false -> doc' = doc)
  else
    exists e, mutate_manifest blend w = (Raise e, w).
Proof.
  intros Hf. destruct (wf_manifest doc) eqn:Hwf.
  - destruct (mutate_data_wf blend doc Hwf) as (doc' & Hd & Hframe & _ & Hsame).
    exists (mktemp (fs w)), doc'.
    rewrite (mutate_manifest_run blend doc doc' w Hf Hd). simpl.
    split; [reflexivity|]. split; [apply mktemp_fresh|]. split; [exact Hframe|].
    split; [|split; [|exact Hsame]].
    + rewrite lookup_insert_ne; [exact Hf|].
      intros Heq. pose proof (mktemp_fresh (fs w)) as Hfresh.
      rewrite Heq in Hfresh. congruence.
    + intros path Hne. now apply lookup_insert_ne.
  - unfold mutate_manifest, bind, read_json, lift. rewrite Hf.
    destruct (mutate_data blend doc) as [doc'|e] eqn:Hd; [|eauto].
    apply mutate_data_ok_wf in Hd. congruence.
Qed.

(** C10 — For a manifest as the specification describes it, with any
    number of presets whose id is balanced-optics, the document
    [mutate_manifest] writes has, at the position of each such preset, a
    preset whose panels.compositor.blend is the given blend; where the
    preset had no panels, its panels is now the mapping holding only that
    compositor, and where panels had no compositor, its compositor is now
    the mapping holding only the blend. *)
Theorem every_matching_preset_mutated (blend : float) (doc : json) (w : world) :
  fs w !! MANIFEST_PATH = Some (JsonFile doc) ->
  wf_manifest doc = true ->
  exists tmp doc',
    fst (mutate_manifest blend w) = Ok tmp
    /\ fs (snd (mutate_manifest blend w)) !! tmp = Some (JsonFile doc')
    /\ length (presets_of doc') = length (presets_of doc)
    /\ forall (i : nat) (p : json),
         presets_of doc !! i = Some p ->
         is_target p = true ->
         exists p',
           presets_of doc' !! i = Some p'
           /\ json_at ["panels"; "compositor"; "blend"] p' = Some (JFloat blend)
           /\ (json_at ["panels"] p = None ->
               json_at ["panels"] p'
               = Some (JObj [("compositor", JObj [("blend", JFloat blend)])]))
           /\ (json_at ["panels"; "compositor"] p = None ->
               json_at ["panels"; "compositor"] p'
               = Some (JObj [("blend", JFloat blend)])).
Proof.
  intros Hf Hwf.
  destruct (mutate_data_wf blend doc Hwf) as (doc' & Hd & _ & (ps' & Hps & Hset) & _).
  exists (mktemp (fs w)), doc'.
  rewrite (mutate_manifest_run blend doc doc' w Hf Hd). simpl.
  split; [reflexivity|]. split; [apply lookup_insert_eq|]. subst ps'.
  split; [symmetry; exact (Forall2_length _ _ _ Hset)|].
  intros i p0 Hi Ht.
  destruct (Forall2_lookup_l _ _ _ _ _ Hset Hi) as (p' & Hi' & Hb).
  exists p'. split; [exact Hi'|]. exact (Hb Ht).
Qed.

(** ** The sweep: one point *)

Lemma try_finally_unlink (A : Type) (body : M A) (path : string) (w : world) :
  try_finally body (unlink_missing_ok path) w
  = (fst (body w), set_fs (delete path (fs (snd (body w)))) (snd (body w))).
Proof. unfold try_finally, unlink_missing_ok. now destruct (body w). Qed.

(** The [try] block of one point, from the world [w1] in which the
    temporary manifest [manifest] has been written. *)
Lemma point_body_run (client : IndraClient) (blend : float) (manifest : string)
    (w1 : world) :
  let p := fresh (dom (heap w1)) in
  let w3 := set_heap (<[p := sent_payload blend manifest]> (heap w1)) w1 in
  let req := post_request client "/render" (sent_payload blend manifest) in
  (payload <- alloc [("input", JStr INPUT_IMAGE);
                     ("output", JStr (output_path blend));
                     ("manifest", JStr manifest);
                     ("preset", JStr "balanced-optics")] ;;
   result <- render client payload ;;
   metrics <- lift (py_getitem (JObj result) "metrics") ;;
   indra_index <- lift (py_getitem metrics "indraIndex") ;;
   rim_mean <- lift (py_getitem metrics "rimMean") ;;
   coherence_mean <- lift (py_getitem metrics "coherenceMean") ;;
   writerow [JFloat blend; indra_index; rim_mean; coherence_mean]) w1
  = match rbind (rbind (decode (reply_to req w3)) _expect_ok) (row_of blend) with
    | Ok row => (Ok tt, set_sink (sink w1 ++ [row])%list (after_exchange req w3))
    | Raise e => (Raise e, after_exchange req w3)
    end.
Proof.
  intros p w3 req. unfold bind at 1. unfold alloc. fold p.
  unfold bind at 1.
  set (d0 := [("input", JStr INPUT_IMAGE);
              ("output", JStr (output_path blend));
              ("manifest", JStr manifest);
              ("preset", JStr "balanced-optics")]).
  rewrite (render_accepted client p d0 _ (lookup_insert_eq _ _ _)
             eq_refl eq_refl).
  cbv zeta. simpl fst.
  replace (set_heap _ (set_heap _ w1)) with w3
    by (unfold w3, set_heap; simpl; now rewrite insert_insert_eq).
  fold (sent_payload blend manifest). fold req.
  destruct (rbind (decode (reply_to req w3)) _expect_ok) as [result|e];
    [|reflexivity].
  unfold row_of, bind, lift, rbind, writerow.
  destruct (py_getitem (JObj result) "metrics") as [metrics|]; [|reflexivity].
  destruct (py_getitem metrics "indraIndex"); [|reflexivity].
  destruct (py_getitem metrics "rimMean"); [|reflexivity].
  destruct (py_getitem metrics "coherenceMean"); reflexivity.
Qed.

Lemma py_getitem_ok (obj : json) (k : string) (v : json) :
  py_getitem obj k = Ok v <-> exists d, obj = JObj d /\ dict_get k d = Some v.
Proof.
  unfold py_getitem. split.
  - destruct obj as [| | | | | |d]; try discriminate.
    destruct (dict_get k d) eqn:E; [|discriminate].
    intros H. injection H as <-. eauto.
  - intros (d & -> & H). now rewrite H.
Qed.

(** The answers on which a point completes are those that hold its row. *)
Lemma row_of_answer (blend : float) (answer : reply) (row : list json) :
  rbind (rbind (decode answer) _expect_ok) (row_of blend) = Ok row
  <-> point_row blend answer row.
Proof.
  unfold point_row. split.
  - destruct answer as [e| |j]; try discriminate. simpl decode. unfold rbind at 2.
    destruct j as [| | | | | |resp]; try discriminate.
    rewrite _expect_ok_object.
    destruct (py_eq_str (dict_get "status" resp) "ok") eqn:Hst; [|discriminate].
    apply py_eq_str_true in Hst. unfold rbind at 1. unfold row_of.
    set (res := List.filter _ resp).
    destruct (py_getitem (JObj res) "metrics") as [metrics|] eqn:Hm;
      [|discriminate].
    apply py_getitem_ok in Hm as (d & Hd & Hm). injection Hd as <-.
    unfold res in Hm. rewrite dict_get_without in Hm. simpl in Hm.
    unfold rbind.
    destruct (py_getitem metrics "indraIndex") as [a|] eqn:Ha; [|discriminate].
    destruct (py_getitem metrics "rimMean") as [b|] eqn:Hb; [|discriminate].
    destruct (py_getitem metrics "coherenceMean") as [c|] eqn:Hc; [|discriminate].
    intros H. injection H as <-.
    apply py_getitem_ok in Ha as (m & -> & Ha).
    apply py_getitem_ok in Hb as (m' & Hm' & Hb). injection Hm' as <-.
    apply py_getitem_ok in Hc as (m' & Hm' & Hc). injection Hm' as <-.
    exists resp, m, a, b, c. auto 10.
  - intros (resp & m & a & b & c & -> & Hst & Hm & Ha & Hb & Hc & ->).
    simpl decode. unfold rbind at 2. rewrite _expect_ok_object.
    apply py_eq_str_true in Hst. rewrite Hst. unfold rbind at 1.
    unfold row_of. simpl py_getitem. rewrite dict_get_without. simpl.
    rewrite Hm. simpl. now rewrite Ha, Hb, Hc.
Qed.

(** What one turn of the loop does. *)
Lemma sweep_point_cases (client : IndraClient) (blend : float) (w w' : world)
    (r : result unit) :
  sweep_point client blend w = (r, w') ->
  fs w' !! mktemp (fs w) = None
  /\ ((r = Ok tt
       /\ exists req answer row,
            sent_for client blend req
            /\ point_row blend answer row
            /\ net w' = (net w ++ [(req, answer)])%list
            /\ sink w' = (sink w ++ [row])%list)
      \/ (exists e,
            r = Raise e
            /\ sink w' = sink w
            /\ (net w' = net w
                \/ exists req answer,
                     sent_for client blend req
                     /\ (forall row, ~ point_row blend answer row)
                     /\ net w' = (net w ++ [(req, answer)])%list))).
Proof.
  unfold sweep_point. unfold bind at 1.
  destruct (mutate_manifest_cases blend w) as [(e & ->)|(doc' & ->)].
  - intros H. injection H as <- <-. split; [apply mktemp_fresh|].
    right. exists e. auto.
  - rewrite try_finally_unlink. rewrite point_body_run. cbv zeta.
    set (tmp := mktemp (fs w)).
    set (w1 := set_fs _ w).
    set (w3 := set_heap _ w1).
    set (req := post_request client "/render" (sent_payload blend tmp)).
    destruct (rbind (rbind (decode (reply_to req w3)) _expect_ok) (row_of blend))
      as [row|e] eqn:Hrow; simpl; intros H; injection H as <- <-; simpl;
      (split; [apply lookup_delete_eq|]).
    + left. split; [reflexivity|]. exists req, (reply_to req w3), row.
      split; [now exists tmp|]. split; [now apply row_of_answer|]. auto.
    + right. exists e. split; [reflexivity|]. split; [reflexivity|].
      right. exists req, (reply_to req w3). split; [now exists tmp|].
      split; [|reflexivity].
      intros row Hp. apply row_of_answer in Hp. congruence.
Qed.

(** C5 — After a turn of the loop, however it ends, there is no file at
    the path of that turn's temporary manifest: either [mutate_manifest]
    raised before writing any file, or the file was written and then
    removed, whether [render] and the reading of the metrics returned or
    raised. Removing a path that has no file is not an error and changes
    nothing. *)
Theorem temp_manifest_removed (client : IndraClient) (blend : float) (w : world) :
  fs (snd (sweep_point client blend w)) !! mktemp (fs w) = None
  /\ ((exists e, sweep_point client blend w = (Raise e, w))
      \/ (exists doc',
            fs (snd (mutate_manifest blend w)) !! mktemp (fs w)
            = Some (JsonFile doc')))
  /\ (forall (path : string) (w0 : world),
        fs w0 !! path = None -> unlink_missing_ok path w0 = (Ok tt, w0)).
Proof.
  split; [|split].
  - destruct (sweep_point client blend w) as [r w'] eqn:E.
    exact (proj1 (sweep_point_cases client blend w w' r E)).
  - unfold sweep_point. unfold bind at 1.
    destruct (mutate_manifest_cases blend w) as [(e & ->)|(doc' & ->)].
    + left. now exists e.
    + right. exists doc'. simpl. apply lookup_insert_eq.
  - intros path w0 H. unfold unlink_missing_ok.
    rewrite delete_id by exact H. unfold set_fs. now rewrite world_eta.
Qed.

(** ** The sweep: the loop and the report *)

(** What one turn of the loop does, by what it met. *)
Lemma sweep_point_outcome (client : IndraClient) (blend : float) (w w' : world)
    (r : result unit) :
  sweep_point client blend w = (r, w') ->
  (exists e, r = Raise e /\ w' = w /\ mutate_manifest blend w = (Raise e, w))
  \/ exists req answer,
       sent_for client blend req
       /\ net w' = (net w ++ [(req, answer)])%list
       /\ match rbind (rbind (decode answer) _expect_ok) (row_of blend) with
          | Ok row => r = Ok tt /\ sink w' = (sink w ++ [row])%list
          | Raise e => r = Raise e /\ sink w' = sink w
          end.
Proof.
  unfold sweep_point. unfold bind at 1.
  destruct (mutate_manifest_cases blend w) as [(e & He)|(doc' & He)]; rewrite He.
  - intros H. injection H as <- <-. left. exists e. auto.
  - rewrite try_finally_unlink. rewrite point_body_run. cbv zeta.
    set (tmp := mktemp (fs w)).
    set (w1 := set_fs _ w).
    set (w3 := set_heap _ w1).
    set (req := post_request client "/render" (sent_payload blend tmp)).
    intros H. right. exists req, (reply_to req w3).
    split; [now exists tmp|].
    destruct (rbind (rbind (decode (reply_to req w3)) _expect_ok) (row_of blend))
      as [row|e]; simpl in H; injection H as <- <-; simpl; auto.
Qed.

Lemma sweep_loop_trace (client : IndraClient) (blends : list float)
    (w w' : world) (r : result unit) :
  sweep_loop client blends w = (r, w') ->
  exists done rest exchanges rows added,
    blends = (done ++ rest)%list
    /\ sweep_trace client done exchanges rows
    /\ sink w' = (sink w ++ rows)%list
    /\ net w' = (net w ++ added)%list
    /\ loop_end client r rest added exchanges w'.
Proof.
  revert w. induction blends as [|blend blends IH]; intros w; simpl.
  - intros H. injection H as <- <-.
    exists [], [], [], [], []. rewrite !app_nil_r.
    repeat split; constructor.
  - unfold bind. destruct (sweep_point client blend w) as [r1 w1] eqn:Hpoint.
    destruct (sweep_point_outcome client blend w w1 r1 Hpoint)
      as [(e & -> & -> & Hm)|(req & answer & Hreq & Hnet & Hout)].
    + intros H. injection H as <- <-.
      exists [], (blend :: blends), [], [], []. rewrite !app_nil_r.
      repeat split; try constructor. exists blend, blends. auto.
    + destruct (rbind (rbind (decode answer) _expect_ok) (row_of blend))
        as [row|e] eqn:Hrow.
      * destruct Hout as [-> Hsink]. intros Hloop.
        destruct (IH w1 Hloop)
          as (done & rest & exchanges & rows & added & -> & Htr & Hs & Hn & Hend).
        exists (blend :: done), rest, ((req, answer) :: exchanges), (row :: rows),
          ((req, answer) :: added).
        split; [reflexivity|].
        split; [constructor; [exact Hreq|now apply row_of_answer|exact Htr]|].
        split; [rewrite Hs, Hsink; now rewrite <- app_assoc|].
        split; [rewrite Hn, Hnet; now rewrite <- app_assoc|].
        destruct r; simpl in *.
        -- destruct Hend as [-> ->]. auto.
        -- destruct Hend as (b & rest' & -> & Hadded). exists b, rest'.
           split; [reflexivity|].
           destruct Hadded as [[-> Hm]|(req' & answer' & ? & -> & ?)];
             [now left|].
           right. exists req', answer'. auto.
      * destruct Hout as [-> Hsink]. intros H. injection H as <- <-.
        exists [], (blend :: blends), [], [], [(req, answer)].
        rewrite Hsink, Hnet, !app_nil_r.
        repeat split; try constructor. exists blend, blends.
        split; [reflexivity|]. right. exists req, answer. auto.
Qed.

(** ** The sweep: from the checks to the loop *)

Lemma blocked_clear (above : list string) (files : filesystem) :
  (forall a, In a above -> files !! a = None) -> blocked above files = false.
Proof.
  intros H. unfold blocked. apply not_true_iff_false. intros Hex.
  apply existsb_exists in Hex as (a & Hin & Ha).
  apply bool_decide_eq_true in Ha as [x Hx]. rewrite (H a Hin) in Hx. discriminate.
Qed.

(** [main] after the check of the input image. *)
Lemma run_sweep_run (points : list float) (w : world) :
  is_Some (fs w !! INPUT_IMAGE) ->
  run_sweep points w
  = match health (new_client None) w with
    | (Ok true, w1) =>
        (mkdir_parents OUTPUT_DIR ;;
         open_csv CSV_PATH ;;
         writerow header ;;
         sweep_loop (new_client None) points) w1
    | (Ok false, w1) =>
        (Raise (RuntimeError
                  "Local Indra REST server is not reachable on http://127.0.0.1:8787"),
         w1)
    | (Raise e, w1) => (Raise e, w1)
    end.
Proof.
  intros Himg. unfold run_sweep. unfold bind at 1.
  unfold path_exists. rewrite (bool_decide_eq_true_2 _ Himg).
  cbn [orb negb]. cbv iota. unfold bind at 1.
  destruct (health (new_client None) w) as [[[|]|e] w1]; reflexivity.
Qed.

(** The world in which the loop starts when nothing stands in the way of
    the report: the directories are made, the report file is created or
    emptied, and the header is its one row. *)
Lemma report_opened (points : list float) (w1 : world) :
  report_clear w1 ->
  (mkdir_parents OUTPUT_DIR ;;
   open_csv CSV_PATH ;;
   writerow header ;;
   sweep_loop (new_client None) points) w1
  = sweep_loop (new_client None) points
      (set_sink [header]
         (set_fs (<[CSV_PATH := CsvFile]> (fs w1))
            (set_dirs (dirs w1 ∪ list_to_set (ancestors OUTPUT_DIR ++ [OUTPUT_DIR])) w1))).
Proof.
  intros [Hfree Hcsv].
  assert (Habove : blocked (ancestors OUTPUT_DIR) (fs w1) = false).
  { apply blocked_clear. intros a Ha. apply Hfree, in_or_app. now left. }
  assert (Hout : fs w1 !! OUTPUT_DIR = None).
  { apply Hfree, in_or_app. right. now left. }
  unfold bind at 1. unfold mkdir_parents. rewrite Habove, Hout.
  rewrite bool_decide_eq_false_2 by (intros [? ?]; discriminate).
  unfold bind at 1. unfold open_csv.
  change (ancestors CSV_PATH) with (ancestors OUTPUT_DIR ++ [OUTPUT_DIR])%list.
  cbn [fs set_dirs dirs].
  rewrite (blocked_clear _ _ Hfree).
  assert (Hdirs : forallb
            (fun a => bool_decide
                        (a ∈ dirs w1 ∪ list_to_set (ancestors OUTPUT_DIR ++ [OUTPUT_DIR])))
            (ancestors OUTPUT_DIR ++ [OUTPUT_DIR])%list = true).
  { apply forallb_forall. intros a Ha. apply bool_decide_eq_true.
    apply elem_of_union_r, elem_of_list_to_set, list_elem_of_In, Ha. }
  rewrite Hdirs. cbn [negb].
  rewrite bool_decide_eq_false_2.
  - reflexivity.
  - intros Hin. apply elem_of_union in Hin as [Hin|Hin]; [now apply Hcsv|].
    apply elem_of_list_to_set, list_elem_of_In in Hin.
    vm_compute in Hin. intuition discriminate.
Qed.

(** The same steps when the report path is a directory. *)
Lemma report_path_taken (points : list float) (w1 : world) :
  (forall c, In c (ancestors OUTPUT_DIR ++ [OUTPUT_DIR])%list -> fs w1 !! c = None) ->
  CSV_PATH ∈ dirs w1 ->
  (mkdir_parents OUTPUT_DIR ;;
   open_csv CSV_PATH ;;
   writerow header ;;
   sweep_loop (new_client None) points) w1
  = (Raise (OSError EISDIR CSV_PATH),
     set_dirs (dirs w1 ∪ list_to_set (ancestors OUTPUT_DIR ++ [OUTPUT_DIR])) w1).
Proof.
  intros Hfree Hcsv.
  assert (Habove : blocked (ancestors OUTPUT_DIR) (fs w1) = false).
  { apply blocked_clear. intros a Ha. apply Hfree, in_or_app. now left. }
  assert (Hout : fs w1 !! OUTPUT_DIR = None).
  { apply Hfree, in_or_app. right. now left. }
  unfold bind at 1. unfold mkdir_parents. rewrite Habove, Hout.
  rewrite bool_decide_eq_false_2 by (intros [? ?]; discriminate).
  unfold bind at 1. unfold open_csv.
  change (ancestors CSV_PATH) with (ancestors OUTPUT_DIR ++ [OUTPUT_DIR])%list.
  cbn [fs set_dirs dirs].
  rewrite (blocked_clear _ _ Hfree).
  assert (Hdirs : forallb
            (fun a => bool_decide
                        (a ∈ dirs w1 ∪ list_to_set (ancestors OUTPUT_DIR ++ [OUTPUT_DIR])))
            (ancestors OUTPUT_DIR ++ [OUTPUT_DIR])%list = true).
  { apply forallb_forall. intros a Ha. apply bool_decide_eq_true.
    apply elem_of_union_r, elem_of_list_to_set, list_elem_of_In, Ha. }
  rewrite Hdirs. cbn [negb].
  now rewrite bool_decide_eq_true_2 by (now apply elem_of_union_l).
Qed.

(** ** The sweep: the report *)


(** * Further properties of the code *)

(** ** The client: construction *)

Lemma rstrip_slash_split (s : string) :
  exists n, s = rstrip_slash s ++ slashes n.
Proof.
  induction s as [|c s IH]; [now exists 0%nat|].
  destruct IH as (n & Hs). simpl rstrip_slash.
  destruct (rstrip_slash s) as [|a t] eqn:E.
  - destruct (Ascii.eqb_spec c "/"%char) as [->|Hc].
    + exists (S n). now rewrite Hs at 1.
    + exists n. now rewrite Hs at 1.
  - exists n. now rewrite Hs at 1.
Qed.

Lemma rstrip_slash_no_trailing (s : string) :
  ends_with_slash (rstrip_slash s) = false.
Proof.
  induction s as [|c s IH]; [reflexivity|]. simpl rstrip_slash.
  destruct (rstrip_slash s) as [|a t] eqn:E.
  - destruct (Ascii.eqb_spec c "/"%char) as [->|Hc]; [reflexivity|].
    simpl. now apply Ascii.eqb_neq.
  - exact IH.
Qed.

Lemma rstrip_slash_slash (s : string) :
  rstrip_slash (s ++ "/") = rstrip_slash s.
Proof.
  induction s as [|c s IH]; [reflexivity|].
  change (String c s ++ "/") with (String c (s ++ "/")).
  simpl rstrip_slash. now rewrite IH.
Qed.

Lemma append_slashes_succ (s : string) (n : nat) :
  s ++ slashes (S n) = (s ++ "/") ++ slashes n.
Proof.
  induction s as [|c s IH]; [reflexivity|].
  change (String c s ++ slashes (S n)) with (String c (s ++ slashes (S n))).
  now rewrite IH.
Qed.

(** X1 — The base URL a client keeps never ends in a slash, and the
    configured one (the default when no options are given) is that URL
    followed by slashes only. *)
Theorem client_base_url_stripped (options : option IndraClientOptions) :
  ends_with_slash (_base_url (new_client options)) = false
  /\ exists n,
       base_url (default default_options options)
       = _base_url (new_client options) ++ slashes n.
Proof.
  unfold new_client. simpl _base_url. split.
  - apply rstrip_slash_no_trailing.
  - apply rstrip_slash_split.
Qed.

(** X2 — Trailing slashes in the configured base URL make no difference:
    the client built is the same, and so is every URL it requests. *)
Theorem client_ignores_trailing_slashes (u : string) (t : float) (n : nat) :
  new_client (Some (Options (u ++ slashes n) t)) = new_client (Some (Options u t)).
Proof.
  unfold new_client. simpl. f_equal.
  revert u. induction n as [|n IH]; intros u.
  - now rewrite append_empty_r.
  - now rewrite append_slashes_succ, IH, rstrip_slash_slash.
Qed.

(** ** The client: what is sent, and what comes back *)

Lemma set_heap_same (p : loc) (d : pydict) (w : world) :
  heap w !! p = Some d -> set_heap (<[p := d]> (heap w)) w = w.
Proof.
  intros H. unfold set_heap. rewrite insert_id by exact H. apply world_eta.
Qed.

Lemma nothing_missing (d : pydict) (keys : list string) :
  (forall key, In key keys -> dict_contains key d <> false) ->
  List.filter (fun key => negb (dict_contains key d)) keys = [].
Proof.
  induction keys as [|k keys IH]; intros H; [reflexivity|]. simpl.
  destruct (dict_contains k d) eqn:E.
  - simpl. apply IH. intros key Hin. apply H. now right.
  - destruct (H k (or_introl eq_refl) E).
Qed.

(** The run of a call whose payload passes the check. *)
Lemma call_accepted (op : operation) (self : IndraClient) (p : loc)
    (d : pydict) (w : world) :
  heap w !! p = Some d ->
  ~ lacks_required op d ->
  call op self p w
  = (rbind (decode (reply_to (post_request self (op_path op) (sent_body op d))
                             (set_heap (<[p := sent_body op d]> (heap w)) w)))
           _expect_ok,
     after_exchange (post_request self (op_path op) (sent_body op d))
                    (set_heap (<[p := sent_body op d]> (heap w)) w)).
Proof.
  intros Hp Hl.
  destruct op; unfold lacks_required in Hl; unfold call, op_path, sent_body.
  - rewrite (render_run _ _ d) by exact Hp.
    rewrite nothing_missing; [reflexivity|]. intros key Hin Hc. apply Hl. eauto.
  - rewrite (set_heap_same p d w Hp).
    unfold simulate. rewrite (posting_run _ _ _ _ _ d) by exact Hp.
    rewrite nothing_missing; [reflexivity|]. intros key Hin Hc. apply Hl. eauto.
  - rewrite (set_heap_same p d w Hp).
    unfold capture. rewrite (posting_run _ _ _ _ _ d) by exact Hp.
    rewrite nothing_missing; [reflexivity|]. intros key Hin Hc. apply Hl. eauto.
  - rewrite (set_heap_same p d w Hp).
    rewrite (validate_manifest_run _ _ d) by exact Hp.
    destruct (dict_contains "manifest" d), (dict_contains "manifestPath" d);
      try reflexivity.
    destruct Hl. auto.
Qed.

(** X3 — A call whose payload lacks no required key (for
    validate_manifest: has manifest or manifestPath) performs exactly one
    exchange: a POST to the base URL followed by the path of the
    operation, with the JSON content type and, as body, the payload
    (for render, the payload with bitDepth defaulted to 8). The values
    of the required keys are not looked at, and no report row is
    written. *)
Theorem accepted_call_sends_one_post (op : operation) (self : IndraClient)
    (p : loc) (d : pydict) (w : world) :
  heap w !! p = Some d ->
  ~ lacks_required op d ->
  exists answer,
    net (snd (call op self p w))
    = (net w ++ [(Request "POST" (_base_url self ++ op_path op)
                          (Some match op with
                                | Render => fst (dict_setdefault "bitDepth" (JInt 8) d)
                                | _ => d
                                end)
                          [("Content-Type", "application/json")],
                  answer)])%list
    /\ sink (snd (call op self p w)) = sink w.
Proof.
  intros Hp Hl. rewrite (call_accepted op self p d w Hp Hl).
  eexists. split; [|reflexivity].
  simpl snd. rewrite net_after_exchange. reflexivity.
Qed.

(** Whatever the service answered to the one exchange of a call decides
    its outcome. *)
Lemma call_outcome (op : operation) (self : IndraClient) (p : loc)
    (w w' : world) (r : result pydict) (req : request) (answer : reply) :
  call op self p w = (r, w') ->
  net w' = (net w ++ [(req, answer)])%list ->
  r = rbind (decode answer) _expect_ok.
Proof.
  intros Hrun Hnet.
  destruct (heap w !! p) as [d|] eqn:Hp.
  - destruct op; simpl in Hrun;
      [ rewrite (render_run _ _ d) in Hrun by exact Hp
      | unfold simulate in Hrun; rewrite (posting_run _ _ _ _ _ d) in Hrun by exact Hp
      | unfold capture in Hrun; rewrite (posting_run _ _ _ _ _ d) in Hrun by exact Hp
      | rewrite (validate_manifest_run _ _ d) in Hrun by exact Hp ];
      match type of Hrun with
      | context [List.filter ?f ?l] => destruct (List.filter f l)
      | context [negb ?a && negb ?b] => destruct (negb a && negb b)
      end;
      simpl in Hrun; injection Hrun as <- <-;
      first [ now apply net_grows_absurd in Hnet | answered Hnet ].
  - rewrite (call_dangling op self p w Hp) in Hrun.
    injection Hrun as <- <-. now apply net_grows_absurd in Hnet.
Qed.

(** X4 — The non-health operations catch nothing: when the exchange of a
    call fails to connect, read or decode with an exception, the call
    raises that exception; when the body is not JSON it raises
    JSONDecodeError; when the body is JSON but not an object (a list, a
    string, a number, true, false, null) it raises AttributeError. *)
Theorem call_propagates_failures (op : operation) (self : IndraClient)
    (p : loc) (w w' : world) (r : result pydict) (req : request) (answer : reply) :
  call op self p w = (r, w') ->
  net w' = (net w ++ [(req, answer)])%list ->
  match answer with
  | Unreachable e => r = Raise e
  | NonJson => r = Raise JSONDecodeError
  | Body (JObj _) => True
  | Body _ => r = Raise AttributeError
  end.
Proof.
  intros Hrun Hnet. rewrite (call_outcome op self p w w' r req answer Hrun Hnet).
  destruct answer as [e| |j]; try reflexivity. now destruct j.
Qed.

(** X5 — [health] sends one GET to the base URL followed by /health,
    with no body and no header, and touches neither the caller's objects
    nor the report. Unless the answer is JSON that is not an object, it
    returns a boolean, which is true exactly when the answer is an object
    whose status is the string ok: a failure to connect, a body that is
    not JSON and an object with another status or none all give false. *)
Theorem health_probe (self : IndraClient) (w : world) :
  exists answer,
    net (snd (health self w))
    = (net w ++ [(Request "GET" (_base_url self ++ "/health") None [], answer)])%list
    /\ heap (snd (health self w)) = heap w
    /\ sink (snd (health self w)) = sink w
    /\ ((forall j, answer = Body j -> exists d, j = JObj d) ->
        exists b,
          fst (health self w) = Ok b
          /\ (b = true <->
              exists d, answer = Body (JObj d)
                        /\ dict_get "status" d = Some (JStr "ok"))).
Proof.
  rewrite health_run. exists (reply_to (health_request self) w).
  split; [reflexivity|]. split; [reflexivity|]. split; [reflexivity|].
  intros Hobj. simpl fst.
  destruct (reply_to (health_request self) w) as [e| |j].
  - exists false. split; [reflexivity|].
    split; [discriminate|]. intros (d & Hd & _). discriminate.
  - exists false. split; [reflexivity|].
    split; [discriminate|]. intros (d & Hd & _). discriminate.
  - destruct (Hobj j eq_refl) as (d & ->).
    exists (py_eq_str (dict_get "status" d) "ok"). split; [reflexivity|].
    rewrite py_eq_str_true. split.
    + intros H. exists d. auto.
    + intros (d' & Hd & Hst). injection Hd as ->. exact Hst.
Qed.

Lemma setdefault_contains (k k' : string) (v : json) (d : pydict) :
  dict_contains k d = true ->
  dict_contains k (fst (dict_setdefault k' v d)) = true.
Proof.
  intros H. apply dict_contains_true in H as [x Hx]. apply dict_contains_true.
  destruct (String.eqb_spec k' k) as [->|Hne].
  - rewrite setdefault_get. eauto.
  - rewrite setdefault_get_ne by exact Hne. eauto.
Qed.

Lemma setdefault_twice (k : string) (v : json) (d : pydict) :
  fst (dict_setdefault k v (fst (dict_setdefault k v d)))
  = fst (dict_setdefault k v d).
Proof.
  now rewrite (setdefault_present k v _ _ (setdefault_get k v d)).
Qed.

(** X6 — The bitDepth default is applied once: after a render on a
    payload that has input and output, the caller's object has a
    bitDepth (its own, or 8); a second render on the same object leaves
    it as the first left it and sends the same body again. *)
Theorem render_default_applied_once (self : IndraClient) (p : loc) (d : pydict)
    (w : world) :
  heap w !! p = Some d ->
  dict_contains "input" d = true ->
  dict_contains "output" d = true ->
  exists (d1 : pydict) (first second : reply),
    heap (snd (render self p w)) !! p = Some d1
    /\ dict_get "bitDepth" d1 = Some (default (JInt 8) (dict_get "bitDepth" d))
    /\ heap (snd (render self p (snd (render self p w)))) !! p = Some d1
    /\ net (snd (render self p (snd (render self p w))))
       = (net w ++ [(post_request self "/render" d1, first);
                    (post_request self "/render" d1, second)])%list.
Proof.
  intros Hp Hi Ho.
  rewrite (render_accepted self p d w Hp Hi Ho). cbv zeta. simpl snd.
  set (d1 := fst (dict_setdefault "bitDepth" (JInt 8) d)).
  set (w1 := after_exchange _ _).
  assert (Hp1 : heap w1 !! p = Some d1) by apply lookup_insert_eq.
  rewrite (render_accepted self p d1 w1 Hp1
             (setdefault_contains _ _ _ _ Hi) (setdefault_contains _ _ _ _ Ho)).
  cbv zeta. simpl snd.
  assert (Hd1 : fst (dict_setdefault "bitDepth" (JInt 8) d1) = d1)
    by apply setdefault_twice.
  rewrite !Hd1.
  eexists d1, _, _. split; [exact Hp1|]. split; [apply setdefault_get|].
  split; [apply lookup_insert_eq|].
  rewrite net_after_exchange. simpl net. unfold w1.
  rewrite <- app_assoc. reflexivity.
Qed.

(** ** The sweep: preconditions *)

(** X7 — When nothing is at the path of the input image, neither a file
    nor a directory, [main] raises FileNotFoundError with a message that
    names the image path, and does nothing else: no request is sent, no
    directory is made, no file is written and no report is opened. *)
Theorem sweep_requires_input (points : list float) (w : world) :
  fs w !! INPUT_IMAGE = None ->
  INPUT_IMAGE ∉ dirs w ->
  exists msg,
    run_sweep points w = (Raise (FileNotFoundError msg), w)
    /\ str_contains INPUT_IMAGE msg = true.
Proof.
  intros H Hd. unfold run_sweep, bind at 1. unfold path_exists. rewrite H.
  rewrite (bool_decide_eq_false_2 _ Hd).
  rewrite bool_decide_eq_false_2 by (intros [? ?]; discriminate).
  eexists. split; [reflexivity|].
  apply str_contains_app_r, str_contains_here.
Qed.

(** X8 — With the input image in place, [main] probes the service once
    and goes no further unless the probe returns true: when [health]
    returns false it raises RuntimeError with the fixed not-reachable
    message, when [health] raises it raises the same exception, and in
    both cases the world is as [health] left it, so no report is opened
    and no render is requested. *)
Theorem sweep_requires_health (points : list float) (w : world) :
  is_Some (fs w !! INPUT_IMAGE) ->
  fst (health (new_client None) w) <> Ok true ->
  snd (run_sweep points w) = snd (health (new_client None) w)
  /\ (fst (health (new_client None) w) = Ok false ->
      fst (run_sweep points w)
      = Raise (RuntimeError
                 "Local Indra REST server is not reachable on http://127.0.0.1:8787"))
  /\ (forall e, fst (health (new_client None) w) = Raise e ->
                fst (run_sweep points w) = Raise e).
Proof.
  intros Himg Hh. rewrite (run_sweep_run points w Himg).
  destruct (health (new_client None) w) as [[[|]|e] w1]; simpl in *.
  - congruence.
  - split; [reflexivity|]. split; [reflexivity|discriminate].
  - split; [reflexivity|]. split; [discriminate|congruence].
Qed.

(** ** The sweep: files *)

Lemma health_files (self : IndraClient) (w : world) :
  file_neutral -> fs (snd (health self w)) = fs w.
Proof. intros Hn. rewrite health_run. simpl. apply Hn. Qed.

Lemma sweep_point_files (client : IndraClient) (blend : float) (w : world) :
  file_neutral -> fs (snd (sweep_point client blend w)) = fs w.
Proof.
  intros Hn. unfold sweep_point. unfold bind at 1.
  destruct (mutate_manifest_cases blend w) as [(e & ->)|(doc' & ->)];
    [reflexivity|].
  rewrite try_finally_unlink. rewrite point_body_run. cbv zeta.
  destruct (rbind (rbind (decode _) _expect_ok) (row_of blend)); simpl;
    rewrite Hn; simpl; apply delete_insert_id, mktemp_fresh.
Qed.

Lemma sweep_loop_files (client : IndraClient) (points : list float) (w : world) :
  file_neutral -> fs (snd (sweep_loop client points w)) = fs w.
Proof.
  intros Hn. revert w. induction points as [|blend points IH]; intros w;
    [reflexivity|].
  simpl. unfold bind.
  pose proof (sweep_point_files client blend w Hn) as Hpoint.
  destruct (sweep_point client blend w) as [[[]|e] w1]; simpl in *.
  - now rewrite IH.
  - exact Hpoint.
Qed.

Lemma health_dirs (self : IndraClient) (w : world) :
  dirs (snd (health self w)) = dirs w.
Proof. rewrite health_run. reflexivity. Qed.

Lemma sweep_point_dirs (client : IndraClient) (blend : float) (w : world) :
  dirs (snd (sweep_point client blend w)) = dirs w.
Proof.
  unfold sweep_point. unfold bind at 1.
  destruct (mutate_manifest_cases blend w) as [(e & ->)|(doc' & ->)];
    [reflexivity|].
  rewrite try_finally_unlink. rewrite point_body_run. cbv zeta.
  now destruct (rbind (rbind (decode _) _expect_ok) (row_of blend)).
Qed.

Lemma sweep_loop_dirs (client : IndraClient) (points : list float) (w : world) :
  dirs (snd (sweep_loop client points w)) = dirs w.
Proof.
  revert w. induction points as [|blend points IH]; intros w; [reflexivity|].
  simpl. unfold bind.
  pose proof (sweep_point_dirs client blend w) as Hpoint.
  destruct (sweep_point client blend w) as [[[]|e] w1]; simpl in *.
  - now rewrite IH.
  - exact Hpoint.
Qed.

(** X9 — With a service that leaves the files alone, what a sweep that
    got past its two checks leaves on disk. When nothing stands in the way
    of the report, the regular files are those of before with the report
    file added (or replaced), whether every point completed or one failed,
    so no temporary manifest stays behind and the manifest file is as
    before; and the directories are those of before with the output
    directory and the directories above it. When a regular file is where
    the output directory should be, the sweep raises FileExistsError for
    the output directory, and when a regular file is above it,
    NotADirectoryError: in both cases nothing is made, no report is
    opened and no render is requested. When the report path is a
    directory, the sweep raises IsADirectoryError for the report path and
    the regular files are those of before. *)
Theorem sweep_leaves_only_the_report (points : list float) (w : world) :
  file_neutral ->
  is_Some (fs w !! INPUT_IMAGE) ->
  fst (health (new_client None) w) = Ok true ->
  (report_clear w ->
   fs (snd (run_sweep points w)) = <[CSV_PATH := CsvFile]> (fs w)
   /\ dirs (snd (run_sweep points w))
      = dirs w ∪ list_to_set (ancestors OUTPUT_DIR ++ [OUTPUT_DIR]))
  /\ (blocked (ancestors OUTPUT_DIR) (fs w) = false ->
      is_Some (fs w !! OUTPUT_DIR) ->
      run_sweep points w
      = (Raise (OSError EEXIST OUTPUT_DIR), snd (health (new_client None) w)))
  /\ (blocked (ancestors OUTPUT_DIR) (fs w) = true ->
      run_sweep points w
      = (Raise (OSError ENOTDIR OUTPUT_DIR), snd (health (new_client None) w)))
  /\ ((forall c, In c (ancestors OUTPUT_DIR ++ [OUTPUT_DIR])%list -> fs w !! c = None) ->
      CSV_PATH ∈ dirs w ->
      fst (run_sweep points w) = Raise (OSError EISDIR CSV_PATH)
      /\ fs (snd (run_sweep points w)) = fs w
      /\ net (snd (run_sweep points w)) = net (snd (health (new_client None) w))
      /\ sink (snd (run_sweep points w)) = sink w).
Proof.
  intros Hn Himg Hh. rewrite (run_sweep_run points w Himg).
  pose proof (health_files (new_client None) w Hn) as Hf.
  pose proof (health_dirs (new_client None) w) as Hd.
  assert (Hsink : sink (snd (health (new_client None) w)) = sink w)
    by (rewrite health_run; reflexivity).
  destruct (health (new_client None) w) as [r w1]. simpl in Hh, Hf, Hd, Hsink.
  subst r. split; [|split; [|split]].
  - intros [Hfree Hcsv].
    rewrite report_opened by (split; [now rewrite Hf|now rewrite Hd]).
    rewrite sweep_loop_files by exact Hn. rewrite sweep_loop_dirs. simpl.
    now rewrite Hf, Hd.
  - intros Habove Hout. unfold bind at 1. unfold mkdir_parents.
    rewrite Hf, Habove. now rewrite (bool_decide_eq_true_2 _ Hout).
  - intros Habove. unfold bind at 1. unfold mkdir_parents.
    now rewrite Hf, Habove.
  - intros Hfree Hcsv.
    rewrite report_path_taken;
      [auto|intros c Hc; rewrite Hf; now apply Hfree|now rewrite Hd].
Qed.

(** X10 — When the render request of a point is served, the derived
    manifest is on disk: the request names the temporary path as its
    manifest, and the service handles it with the files of before the
    point plus the derived document at that path. *)
Theorem manifest_on_disk_when_rendered (client : IndraClient) (blend : float)
    (doc : json) (w : world) :
  fs w !! MANIFEST_PATH = Some (JsonFile doc) ->
  wf_manifest doc = true ->
  exists doc',
    mutate_data blend doc = Ok doc'
    /\ net (snd (sweep_point client blend w))
       = (net w
          ++ [(post_request client "/render" (sent_payload blend (mktemp (fs w))),
               snd (fst (serve (srv w)
                           (post_request client "/render"
                              (sent_payload blend (mktemp (fs w))))
                           (<[mktemp (fs w) := JsonFile doc']> (fs w)))))])%list.
Proof.
  intros Hf Hwf.
  destruct (mutate_data_wf blend doc Hwf) as (doc' & Hd & _).
  exists doc'. split; [exact Hd|].
  unfold sweep_point. unfold bind at 1.
  rewrite (mutate_manifest_run blend doc doc' w Hf Hd).
  rewrite try_finally_unlink. rewrite point_body_run. cbv zeta.
  now destruct (rbind (rbind (decode _) _expect_ok) (row_of blend)).
Qed.


(** ** Deriving twice *)

Lemma dict_set_set (k : string) (v v' : json) (d : pydict) :
  dict_set k v (dict_set k v' d) = dict_set k v d.
Proof.
  induction d as [|[k0 v0] d IH]; simpl.
  - now rewrite eqb_str_refl.
  - destruct (String.eqb k0 k) eqn:E; simpl; rewrite E; [reflexivity|].
    now rewrite IH.
Qed.

Lemma mutate_preset_again (b1 b2 : float) (p p1 : json) :
  mutate_preset b1 p = Ok p1 -> mutate_preset b2 p1 = mutate_preset b2 p.
Proof.
  destruct p as [| | | | | |d]; try discriminate.
  unfold mutate_preset. simpl py_get. unfold rbind.
  destruct (py_eq_str (dict_get "id" d) "balanced-optics") eqn:Hid;
    [|intros H; injection H as <-; simpl; now rewrite Hid].
  unfold dict_setdefault.
  destruct (dict_get "panels" d) as [[| | | | | |pd]|] eqn:Hp; try discriminate.
  - destruct (dict_get "compositor" pd) as [[| | | | | |cd]|] eqn:Hc;
      try discriminate; intros H; injection H as <-; simpl py_get;
      rewrite dict_get_set_ne by discriminate; rewrite Hid;
      rewrite !dict_get_set_eq; simpl; rewrite ?dict_set_set; reflexivity.
  - simpl dict_get. intros H. injection H as <-. simpl py_get.
    rewrite !dict_get_set_ne by discriminate. rewrite Hid.
    rewrite !dict_get_set_eq. simpl. rewrite ?dict_set_set. reflexivity.
Qed.

Lemma for_each_again (b1 b2 : float) (ps ps1 : list json) :
  for_each (mutate_preset b1) ps = Ok ps1 ->
  for_each (mutate_preset b2) ps1 = for_each (mutate_preset b2) ps.
Proof.
  revert ps1. induction ps as [|q ps IH]; simpl; intros ps1 H.
  - now injection H as <-.
  - destruct (mutate_preset b1 q) as [q1|] eqn:Hq; [|discriminate].
    destruct (for_each (mutate_preset b1) ps) as [qs|] eqn:Hps; [|discriminate].
    injection H as <-. simpl.
    now rewrite (mutate_preset_again b1 b2 q q1 Hq), (IH qs eq_refl).
Qed.

(** The loop on a document whose presets is a list. *)
Lemma mutate_data_presets (b : float) (d c : pydict) (ps : list json) :
  dict_get "controls" d = Some (JObj c) ->
  dict_get "presets" c = Some (JArr ps) ->
  mutate_data b (JObj d)
  = match for_each (mutate_preset b) ps with
    | Ok ps' =>
        Ok (JObj (dict_set "controls" (JObj (dict_set "presets" (JArr ps') c)) d))
    | Raise e => Raise e
    end.
Proof.
  intros Hc Hp. unfold mutate_data. simpl py_get_default. rewrite Hc.
  simpl. rewrite Hp. simpl.
  destruct (for_each (mutate_preset b) ps); [|reflexivity].
  assert (Hcc : dict_contains "controls" d = true)
    by (apply dict_contains_true; eauto).
  assert (Hcp : dict_contains "presets" c = true)
    by (apply dict_contains_true; eauto).
  now rewrite Hcc, Hcp.
Qed.

(** What the loop returns: the document itself, or the document with its
    list of presets replaced. *)
Lemma mutate_data_cases (b : float) (d : pydict) (doc1 : json) :
  mutate_data b (JObj d) = Ok doc1 ->
  doc1 = JObj d
  \/ exists c ps ps1,
       dict_get "controls" d = Some (JObj c)
       /\ dict_get "presets" c = Some (JArr ps)
       /\ for_each (mutate_preset b) ps = Ok ps1
       /\ doc1 = JObj (dict_set "controls"
                         (JObj (dict_set "presets" (JArr ps1) c)) d).
Proof.
  destruct (dict_get "controls" d) as [[| | | | | |c]|] eqn:Hc;
    try (unfold mutate_data; simpl py_get_default; rewrite Hc; discriminate).
  - destruct (dict_get "presets" c) as [[| | | |[|? ?]|ps|[|[? ?] ?]]|] eqn:Hp;
      try (unfold mutate_data; simpl py_get_default; rewrite Hc; simpl;
           rewrite Hp; discriminate).
    + unfold mutate_data. simpl py_get_default. rewrite Hc. simpl. rewrite Hp.
      simpl. intros H. injection H as <-. now left.
    + rewrite (mutate_data_presets b d c ps Hc Hp).
      destruct (for_each (mutate_preset b) ps) as [ps1|] eqn:E; [|discriminate].
      intros H. injection H as <-. right. exists c, ps, ps1. auto.
    + unfold mutate_data. simpl py_get_default. rewrite Hc. simpl. rewrite Hp.
      simpl. intros H. injection H as <-. now left.
    + unfold mutate_data. simpl py_get_default. rewrite Hc. simpl. rewrite Hp.
      simpl. rewrite (proj2 (dict_contains_false "presets" c) Hp), andb_false_r.
      intros H. injection H as <-. now left.
  - unfold mutate_data. simpl py_get_default. rewrite Hc. simpl.
    rewrite (proj2 (dict_contains_false "controls" d) Hc).
    intros H. injection H as <-. now left.
Qed.

(** X12 — Deriving from a derived document gives what deriving from the
    original gives: the last blend wins, nothing of the first derivation
    is left besides, and deriving again with the same blend changes
    nothing. *)
Theorem mutate_data_again (b1 b2 : float) (doc doc1 : json) :
  mutate_data b1 doc = Ok doc1 ->
  mutate_data b2 doc1 = mutate_data b2 doc
  /\ mutate_data b1 doc1 = Ok doc1.
Proof.
  assert (Hagain : forall b, mutate_data b1 doc = Ok doc1 ->
                             mutate_data b doc1 = mutate_data b doc).
  { intros b H. destruct doc as [| | | | | |d]; try discriminate.
    destruct (mutate_data_cases b1 d doc1 H)
      as [->|(c & ps & ps1 & Hc & Hp & Hrun & ->)]; [reflexivity|].
    rewrite (mutate_data_presets b d c ps Hc Hp).
    rewrite (mutate_data_presets b _ (dict_set "presets" (JArr ps1) c) ps1)
      by apply dict_get_set_eq.
    rewrite (for_each_again b1 b ps ps1 Hrun).
    destruct (for_each (mutate_preset b) ps); [|reflexivity].
    now rewrite !dict_set_set. }
  intros H. split; [exact (Hagain b2 H)|].
  now rewrite (Hagain b1 H).
Qed.

(** ** The sweep: counting *)

Lemma sweep_trace_lengths (client : IndraClient) (done : list float)
    (exchanges : list (request * reply)) (rows : list (list json)) :
  sweep_trace client done exchanges rows ->
  length exchanges = length done /\ length rows = length done.
Proof.
  induction 1 as [|blend rest req answer row exchanges rows _ _ _ [IH1 IH2]];
    simpl; auto.
Qed.

(** The steps of [main] between the health check and the loop either
    raise, or start the loop on a report that holds the header only. *)
Lemma report_steps (points : list float) (w1 w' : world) (r : result unit) :
  (mkdir_parents OUTPUT_DIR ;;
   open_csv CSV_PATH ;;
   writerow header ;;
   sweep_loop (new_client None) points) w1 = (r, w') ->
  (exists e, r = Raise e)
  \/ exists w2,
       net w2 = net w1 /\ sink w2 = [header]
       /\ sweep_loop (new_client None) points w2 = (r, w').
Proof.
  unfold bind at 1. unfold mkdir_parents.
  destruct (blocked (ancestors OUTPUT_DIR) (fs w1));
    [intros H; injection H as <- _; eauto|].
  destruct (bool_decide (is_Some (fs w1 !! OUTPUT_DIR)));
    [intros H; injection H as <- _; eauto|].
  unfold bind at 1. unfold open_csv.
  destruct (blocked (ancestors CSV_PATH) _);
    [intros H; injection H as <- _; eauto|].
  destruct (negb _); [intros H; injection H as <- _; eauto|].
  destruct (bool_decide (CSV_PATH ∈ _));
    [intros H; injection H as <- _; eauto|].
  intros H. right. eexists. split; [|split; [|exact H]]; reflexivity.
Qed.

(** X13 — A sweep that returns has sent, after the health probe, exactly
    one render request per configured blend, in the order of the blends
    (nothing is retried or skipped): its exchanges are the probe followed,
    blend by blend, by the render request of that blend with its answer.
    Its report is the header row followed, blend by blend, by the row of
    the metrics of that answer. So it has sent one request more than it
    has blends, and its report has one row per blend besides the header. *)
Theorem completed_sweep_counts (points : list float) (w w' : world) :
  is_Some (fs w !! INPUT_IMAGE) ->
  run_sweep points w = (Ok tt, w') ->
  exists answer0 exchanges rows,
    net w' = (net w ++ (health_request (new_client None), answer0) :: exchanges)%list
    /\ sink w' = header :: rows
    /\ sweep_trace (new_client None) points exchanges rows
    /\ length (net w') = (length (net w) + 1 + length points)%nat
    /\ length (sink w') = S (length points).
Proof.
  intros Himg Hrun.
  pose proof Hrun as Hrun'. rewrite (run_sweep_run points w Himg) in Hrun'.
  pose proof (health_run (new_client None) w) as Hh.
  destruct (health (new_client None) w) as [[[|]|e] w1] eqn:Hhealth;
    try discriminate.
  destruct (report_steps points w1 w' _ Hrun') as [(e & He)|(w2 & Hnet & Hsink & Hgo)];
    [discriminate|].
  clear Hrun'. rename Hgo into Hrun'.
  destruct (sweep_loop_trace _ _ _ _ _ Hrun')
    as (done & rest & exchanges & rows & added & Hb & Htr & Hs & Hn & Hend).
  simpl in Hend. destruct Hend as [-> ->]. rewrite app_nil_r in Hb. subst done.
  destruct (sweep_trace_lengths _ _ _ _ Htr) as [He Hr].
  injection Hh as _ Hw1.
  exists (reply_to (health_request (new_client None)) w), exchanges, rows.
  assert (Hnet' : net w'
                  = (net w ++ (health_request (new_client None),
                               reply_to (health_request (new_client None)) w)
                       :: exchanges)%list).
  { rewrite Hn, Hnet, Hw1, net_after_exchange. now rewrite <- app_assoc. }
  assert (Hsink' : sink w' = header :: rows) by (now rewrite Hs, Hsink).
  split; [exact Hnet'|]. split; [exact Hsink'|]. split; [exact Htr|].
  rewrite Hnet', Hsink', length_app. simpl. split; lia.
Qed.

End Indra.

(** * Instances

    The statements above at the scripted service and the demonstration
    files. *)

Lemma demo_mktemp_fresh (files : filesystem) : files !! demo_mktemp files = None.
Proof. apply not_elem_of_dom. exact (is_fresh (dom files)). Qed.

(** ** The model at work *)

Example rstrip_slash_example : rstrip_slash "http://host:1//" = "http://host:1".
Proof. reflexivity. Qed.

Example join_example : join ", " ["input"; "output"] = "input, output".
Proof. reflexivity. Qed.

Example render_rejects_empty_payload :
  fst (render nat (scripted []) demo_str demo_client 1%positive
         (demo_world nat 0%nat {[ 1%positive := [] ]} ∅))
  = Raise (ValueError "render requires keys: input, output").
Proof. vm_compute. reflexivity. Qed.

Example capture_strips_status :
  fst (capture nat (scripted [metrics_answer 1 2 3]) demo_str demo_client 1%positive
         (demo_world nat 0%nat {[ 1%positive := render_args ]} ∅))
  = Ok [("metrics", JObj [("indraIndex", JInt 1); ("rimMean", JInt 2);
                          ("coherenceMean", JInt 3)])].
Proof. vm_compute. reflexivity. Qed.

Example health_examples :
  fst (health nat (scripted [healthy_answer]) demo_client (demo_world nat 0%nat ∅ ∅)) = Ok true
  /\ fst (health nat (scripted [error_answer]) demo_client (demo_world nat 0%nat ∅ ∅)) = Ok false
  /\ fst (health nat (scripted [NonJson]) demo_client (demo_world nat 0%nat ∅ ∅)) = Ok false
  /\ fst (health nat (scripted [Unreachable (URLError "refused")]) demo_client
            (demo_world nat 0%nat ∅ ∅)) = Ok false.
Proof. repeat split; vm_compute; reflexivity. Qed.

Example sweep_fails_fast :
  fst (run_sweep nat (scripted demo_script) demo_mktemp demo_str demo_format
         [0.5; 0.25; 0.125]%float (demo_world nat 0%nat ∅ demo_files))
  = Raise (RuntimeError "boom")
  /\ sink nat (snd (run_sweep nat (scripted demo_script) demo_mktemp demo_str
                      demo_format [0.5; 0.25; 0.125]%float
                      (demo_world nat 0%nat ∅ demo_files)))
     = [header; [JFloat 0.5%float; JInt 1; JInt 2; JInt 3]]
  /\ length (net nat (snd (run_sweep nat (scripted demo_script) demo_mktemp demo_str
                             demo_format [0.5; 0.25; 0.125]%float
                             (demo_world nat 0%nat ∅ demo_files))))
     = 3%nat.
Proof. repeat split; vm_compute; reflexivity. Qed.

(** ** Instances of the theorems *)

(** simulate answered with an error envelope raises with its message. *)
Lemma expect_ok_discrimination_witness :
  fst (call nat (scripted [error_answer]) demo_str Simulate demo_client 1%positive
            (demo_world nat 0%nat {[ 1%positive := render_args ]} ∅))
  = Raise (RuntimeError "boom").
Proof.
  refine (proj1 (expect_ok_discrimination nat (scripted [error_answer]) demo_str
                   Simulate demo_client 1%positive
                   (demo_world nat 0%nat {[ 1%positive := render_args ]} ∅)
                   _ _
                   (post_request demo_client "/simulate" render_args)
                   [("status", JStr "error"); ("message", JStr "boom")]
                   (surjective_pairing _) _) _).
  - vm_compute. reflexivity.
  - discriminate.
Defined.

(** render on a payload without output: the message names the operation
    and the key, and nothing is sent. *)
Lemma validation_before_network_witness :
  exists msg,
    call nat (scripted []) demo_str Render demo_client 1%positive
         (demo_world nat 0%nat {[ 1%positive := [("input", JStr "in.png")] ]} ∅)
    = (Raise (ValueError msg),
       demo_world nat 0%nat {[ 1%positive := [("input", JStr "in.png")] ]} ∅)
    /\ str_contains "render" msg = true
    /\ str_contains "output" msg = true.
Proof.
  destruct (validation_before_network nat (scripted []) demo_str Render
              demo_client 1%positive [("input", JStr "in.png")]
              (demo_world nat 0%nat {[ 1%positive := [("input", JStr "in.png")] ]} ∅))
    as (msg & Hrun & (_ & Hname & Hkeys) & _).
  - reflexivity.
  - exists "output". split; [simpl; tauto|reflexivity].
  - exists msg. split; [exact Hrun|]. split; [exact Hname|].
    apply Hkeys; [simpl; tauto|reflexivity].
Defined.

(** The message of validate_manifest holds the name of the operation in
    neither spelling. *)
Lemma validate_manifest_message_names_no_operation :
  call nat (scripted []) demo_str ValidateManifest demo_client 1%positive
       (demo_world nat 0%nat {[ 1%positive := [("preset", JStr "balanced-optics")] ]} ∅)
  = (Raise (ValueError ("manifest validation requires " ++ quoted "manifest"
                          ++ " or " ++ quoted "manifestPath" ++ ".")),
     demo_world nat 0%nat {[ 1%positive := [("preset", JStr "balanced-optics")] ]} ∅)
  /\ str_contains "validate_manifest"
       ("manifest validation requires " ++ quoted "manifest"
          ++ " or " ++ quoted "manifestPath" ++ ".") = false
  /\ str_contains "validateManifest"
       ("manifest validation requires " ++ quoted "manifest"
          ++ " or " ++ quoted "manifestPath" ++ ".") = false.
Proof. repeat split; vm_compute; reflexivity. Qed.

(** render without input: the caller's payload is as before. *)
Lemma render_validation_atomic_witness :
  exists msg,
    render nat (scripted []) demo_str demo_client 1%positive
           (demo_world nat 0%nat {[ 1%positive := [("output", JStr "out.png")] ]} ∅)
    = (Raise (ValueError msg),
       demo_world nat 0%nat {[ 1%positive := [("output", JStr "out.png")] ]} ∅)
    /\ heap nat
         (snd (render nat (scripted []) demo_str demo_client 1%positive
                 (demo_world nat 0%nat {[ 1%positive := [("output", JStr "out.png")] ]} ∅)))
       !! 1%positive
       = Some [("output", JStr "out.png")].
Proof.
  apply (render_validation_atomic nat (scripted []) demo_str demo_client
           1%positive [("output", JStr "out.png")]).
  - reflexivity.
  - left. reflexivity.
Defined.

(** render on a payload with input and output only sends bitDepth 8. *)
Lemma render_bit_depth_default_witness :
  exists (body : pydict) (answer : reply),
    net nat (snd (render nat (scripted [error_answer]) demo_str demo_client
                    1%positive (demo_world nat 0%nat {[ 1%positive := render_args ]} ∅)))
    = [(post_request demo_client "/render" body, answer)]
    /\ dict_get "bitDepth" body = Some (JInt 8).
Proof.
  destruct (render_bit_depth_default nat (scripted [error_answer]) demo_str
              demo_client 1%positive render_args
              (demo_world nat 0%nat {[ 1%positive := render_args ]} ∅))
    as (body & answer & Hnet & Hdefault & _); try reflexivity.
  exists body, answer. split; [exact Hnet|]. now apply Hdefault.
Defined.

(** simulate leaves the caller's payload as it was. *)
Lemma payload_after_call_witness :
  heap nat (snd (call nat (scripted [error_answer]) demo_str Simulate demo_client
                   1%positive (demo_world nat 0%nat {[ 1%positive := render_args ]} ∅)))
  !! 1%positive
  = Some render_args.
Proof.
  exact (proj2 (payload_after_call nat (scripted [error_answer]) demo_str
                  Simulate demo_client 1%positive render_args
                  (demo_world nat 0%nat {[ 1%positive := render_args ]} ∅) eq_refl)).
Defined.

(** render on a payload without bitDepth changes the caller's object. *)
Lemma render_changes_caller_payload :
  heap nat (demo_world nat 0%nat {[ 1%positive := render_args ]} ∅) !! 1%positive
  = Some render_args
  /\ heap nat (snd (call nat (scripted [healthy_answer]) demo_str Render demo_client
                      1%positive (demo_world nat 0%nat {[ 1%positive := render_args ]} ∅)))
     !! 1%positive
     = Some (render_args ++ [("bitDepth", JInt 8)])%list
  /\ Some (render_args ++ [("bitDepth", JInt 8)])%list <> Some render_args.
Proof. repeat split; try (vm_compute; reflexivity). discriminate. Qed.

(** A service that answers the probe with the JSON list [[]]. *)
Lemma health_raises_on_non_object_witness :
  fst (health nat (scripted [Body (JArr [])]) demo_client (demo_world nat 0%nat ∅ ∅))
  = Raise AttributeError.
Proof.
  apply (health_raises_on_non_object nat (scripted [Body (JArr [])]) demo_client
           (demo_world nat 0%nat ∅ ∅) (JArr [])).
  - reflexivity.
  - discriminate.
Defined.

(** The derived manifest of the demonstration files. *)
Lemma manifest_mutation_scoped_witness :
  exists tmp doc',
    mutate_manifest nat demo_mktemp 0.5%float (demo_world nat 0%nat ∅ demo_files)
    = (Ok tmp, set_fs nat (<[tmp := JsonFile doc']> demo_files) (demo_world nat 0%nat ∅ demo_files))
    /\ manifest_frame demo_manifest doc'
    /\ fs nat (snd (mutate_manifest nat demo_mktemp 0.5%float (demo_world nat 0%nat ∅ demo_files)))
       !! MANIFEST_PATH
       = Some (JsonFile demo_manifest).
Proof.
  pose proof (manifest_mutation_scoped nat demo_mktemp demo_mktemp_fresh
                0.5%float demo_manifest (demo_world nat 0%nat ∅ demo_files) eq_refl) as H.
  assert (Hwf : wf_manifest demo_manifest = true) by reflexivity.
  rewrite Hwf in H.
  destruct H as (tmp & doc' & Hrun & _ & Hframe & Hkeep & _).
  exists tmp, doc'. split; [exact Hrun|]. split; [exact Hframe|exact Hkeep].
Defined.

(** The second preset with the sought id, at position 2, gets the blend. *)
Lemma every_matching_preset_mutated_witness :
  exists tmp doc' p',
    fst (mutate_manifest nat demo_mktemp 0.5%float (demo_world nat 0%nat ∅ demo_files)) = Ok tmp
    /\ fs nat (snd (mutate_manifest nat demo_mktemp 0.5%float (demo_world nat 0%nat ∅ demo_files)))
       !! tmp
       = Some (JsonFile doc')
    /\ presets_of doc' !! 2%nat = Some p'
    /\ json_at ["panels"; "compositor"; "blend"] p' = Some (JFloat 0.5%float).
Proof.
  destruct (every_matching_preset_mutated nat demo_mktemp 0.5%float demo_manifest
              (demo_world nat 0%nat ∅ demo_files) eq_refl eq_refl)
    as (tmp & doc' & Hrun & Hfile & _ & Hall).
  destruct (Hall 2%nat (JObj [("id", JStr "balanced-optics");
                              ("panels", JObj [("grid", JBool true)])])
              eq_refl eq_refl)
    as (p' & Hp' & Hblend & _).
  exists tmp, doc', p'. auto.
Defined.

(** A point whose render is answered with an error still loses its
    temporary manifest. *)
Lemma temp_manifest_removed_witness :
  fs nat (snd (sweep_point nat (scripted [error_answer]) demo_mktemp demo_str
                 demo_format demo_client 0.5%float (demo_world nat 0%nat ∅ demo_files)))
  !! demo_mktemp demo_files
  = None.
Proof.
  exact (proj1 (temp_manifest_removed nat (scripted [error_answer]) demo_mktemp
                  demo_mktemp_fresh demo_str demo_format demo_client 0.5%float
                  (demo_world nat 0%nat ∅ demo_files))).
Defined.


(** ** Instances of the further properties *)

Lemma scripted_file_neutral (answers : list reply) :
  file_neutral nat (scripted answers).
Proof. intros s req files. reflexivity. Qed.

(** validate_manifest with a manifestPath only is sent as it is. *)
Lemma accepted_call_sends_one_post_witness :
  exists answer,
    net nat (snd (call nat (scripted [error_answer]) demo_str ValidateManifest
                    demo_client 1%positive
                    (demo_world nat 0%nat {[ 1%positive := manifest_args ]} ∅)))
    = [(Request "POST" (_base_url demo_client ++ "/manifest/validate")
                (Some manifest_args) [("Content-Type", "application/json")],
        answer)]
    /\ sink nat (snd (call nat (scripted [error_answer]) demo_str ValidateManifest
                        demo_client 1%positive
                        (demo_world nat 0%nat {[ 1%positive := manifest_args ]} ∅)))
       = [].
Proof.
  apply (accepted_call_sends_one_post nat (scripted [error_answer]) demo_str
           ValidateManifest demo_client 1%positive manifest_args
           (demo_world nat 0%nat {[ 1%positive := manifest_args ]} ∅)).
  - reflexivity.
  - intros [_ H]. discriminate.
Defined.

(** capture against a service that refuses the connection. *)
Lemma call_propagates_failures_witness :
  fst (call nat (scripted [refused]) demo_str Capture demo_client 1%positive
         (demo_world nat 0%nat {[ 1%positive := render_args ]} ∅))
  = Raise (URLError "refused").
Proof.
  apply (call_propagates_failures nat (scripted [refused]) demo_str Capture
           demo_client 1%positive
           (demo_world nat 0%nat {[ 1%positive := render_args ]} ∅)
           _ _ (post_request demo_client "/capture" render_args) refused
           (surjective_pairing _)).
  vm_compute. reflexivity.
Defined.

(** Two renders on the same payload. *)
Lemma render_default_applied_once_witness :
  exists d1,
    heap nat
      (snd (render nat (scripted [error_answer; error_answer]) demo_str demo_client
              1%positive
              (snd (render nat (scripted [error_answer; error_answer]) demo_str
                      demo_client 1%positive
                      (demo_world nat 0%nat {[ 1%positive := render_args ]} ∅)))))
    !! 1%positive
    = Some d1
    /\ dict_get "bitDepth" d1 = Some (JInt 8).
Proof.
  destruct (render_default_applied_once nat (scripted [error_answer; error_answer])
              demo_str demo_client 1%positive render_args
              (demo_world nat 0%nat {[ 1%positive := render_args ]} ∅))
    as (d1 & a & b & _ & Hdepth & Hsecond & _); try reflexivity.
  exists d1. split; [exact Hsecond|exact Hdepth].
Defined.

(** A sweep started without the input image. *)
Lemma sweep_requires_input_witness :
  exists msg,
    run_sweep nat (scripted demo_script) demo_mktemp demo_str demo_format
      [0.5; 0.25]%float (demo_world nat 0%nat ∅ ∅)
    = (Raise (FileNotFoundError msg), demo_world nat 0%nat ∅ ∅)
    /\ str_contains INPUT_IMAGE msg = true.
Proof.
  apply (sweep_requires_input nat (scripted demo_script) demo_mktemp demo_str
           demo_format [0.5; 0.25]%float (demo_world nat 0%nat ∅ ∅)).
  - reflexivity.
  - apply not_elem_of_empty.
Defined.

(** A sweep against a service whose probe answers with an error envelope. *)
Lemma sweep_requires_health_witness :
  fst (run_sweep nat (scripted [error_answer]) demo_mktemp demo_str demo_format
         [0.5; 0.25]%float (demo_world nat 0%nat ∅ demo_files))
  = Raise (RuntimeError
             "Local Indra REST server is not reachable on http://127.0.0.1:8787").
Proof.
  refine (proj1 (proj2 (sweep_requires_health nat (scripted [error_answer])
                          demo_mktemp demo_str demo_format [0.5; 0.25]%float
                          (demo_world nat 0%nat ∅ demo_files) _ _)) _).
  - exists BinaryFile. vm_compute. reflexivity.
  - vm_compute. discriminate.
  - vm_compute. reflexivity.
Defined.

(** The files and directories after the sweep whose second render fails,
    and the same sweep with a regular file where the output directory
    should be. *)
Lemma sweep_leaves_only_the_report_witness :
  (fs nat (snd (run_sweep nat (scripted demo_script) demo_mktemp demo_str demo_format
                  [0.5; 0.25; 0.125]%float (demo_world nat 0%nat ∅ demo_files)))
   = <[CSV_PATH := CsvFile]> demo_files
   /\ dirs nat (snd (run_sweep nat (scripted demo_script) demo_mktemp demo_str
                       demo_format [0.5; 0.25; 0.125]%float
                       (demo_world nat 0%nat ∅ demo_files)))
      = ∅ ∪ list_to_set ["examples"; "examples/artifacts"])
  /\ run_sweep nat (scripted demo_script) demo_mktemp demo_str demo_format
       [0.5; 0.25; 0.125]%float
       (demo_world nat 0%nat ∅ (<[OUTPUT_DIR := OtherFile]> demo_files))
     = (Raise (OSError EEXIST OUTPUT_DIR),
        snd (health nat (scripted demo_script) (new_client None)
               (demo_world nat 0%nat ∅ (<[OUTPUT_DIR := OtherFile]> demo_files)))).
Proof.
  split.
  - refine (proj1 (sweep_leaves_only_the_report nat (scripted demo_script)
                     demo_mktemp demo_mktemp_fresh demo_str demo_format
                     [0.5; 0.25; 0.125]%float
                     (demo_world nat 0%nat ∅ demo_files) _ _ _) _).
    + apply scripted_file_neutral.
    + exists BinaryFile. vm_compute. reflexivity.
    + vm_compute. reflexivity.
    + split.
      * intros c [<-|[<-|[]]]; vm_compute; reflexivity.
      * apply not_elem_of_empty.
  - refine (proj1 (proj2 (sweep_leaves_only_the_report nat (scripted demo_script)
                            demo_mktemp demo_mktemp_fresh demo_str demo_format
                            [0.5; 0.25; 0.125]%float
                            (demo_world nat 0%nat ∅
                               (<[OUTPUT_DIR := OtherFile]> demo_files)) _ _ _)) _ _).
    + apply scripted_file_neutral.
    + exists BinaryFile. vm_compute. reflexivity.
    + vm_compute. reflexivity.
    + vm_compute. reflexivity.
    + exists OtherFile. vm_compute. reflexivity.
Defined.

(** The render request of a point of the demonstration sweep. *)
Lemma manifest_on_disk_when_rendered_witness :
  exists doc',
    mutate_data 0.5%float demo_manifest = Ok doc'
    /\ net nat (snd (sweep_point nat (scripted [error_answer]) demo_mktemp demo_str
                       demo_format demo_client 0.5%float
                       (demo_world nat 0%nat ∅ demo_files)))
       = [(post_request demo_client "/render"
             (sent_payload demo_format 0.5%float (demo_mktemp demo_files)),
           snd (fst (scripted [error_answer] 0%nat
                       (post_request demo_client "/render"
                          (sent_payload demo_format 0.5%float
                             (demo_mktemp demo_files)))
                       (<[demo_mktemp demo_files := JsonFile doc']> demo_files))))].
Proof.
  apply (manifest_on_disk_when_rendered nat (scripted [error_answer]) demo_mktemp
           demo_str demo_format demo_client 0.5%float demo_manifest
           (demo_world nat 0%nat ∅ demo_files)).
  - reflexivity.
  - reflexivity.
Defined.

(** Deriving with 0.5 after deriving with 0.25. *)
Lemma mutate_data_again_witness :
  exists doc1,
    mutate_data 0.25%float demo_manifest = Ok doc1
    /\ mutate_data 0.5%float doc1 = mutate_data 0.5%float demo_manifest.
Proof.
  destruct (mutate_data 0.25%float demo_manifest) as [doc1|e] eqn:E.
  - exists doc1. split; [reflexivity|].
    exact (proj1 (mutate_data_again 0.25%float 0.5%float demo_manifest doc1 E)).
  - vm_compute in E. discriminate.
Defined.

(** A sweep of two blends that completes. *)
Lemma completed_sweep_counts_witness :
  exists answer0 exchanges rows,
    net nat (snd (run_sweep nat (scripted all_ok_script) demo_mktemp demo_str
                    demo_format [0.5; 0.25]%float
                    (demo_world nat 0%nat ∅ demo_files)))
    = ([] ++ (health_request demo_client, answer0) :: exchanges)%list
    /\ sink nat (snd (run_sweep nat (scripted all_ok_script) demo_mktemp demo_str
                        demo_format [0.5; 0.25]%float
                        (demo_world nat 0%nat ∅ demo_files)))
       = header :: rows
    /\ sweep_trace demo_format demo_client [0.5; 0.25]%float exchanges rows
    /\ length (net nat (snd (run_sweep nat (scripted all_ok_script) demo_mktemp
                               demo_str demo_format [0.5; 0.25]%float
                               (demo_world nat 0%nat ∅ demo_files))))
       = 3%nat
    /\ length (sink nat (snd (run_sweep nat (scripted all_ok_script) demo_mktemp
                                demo_str demo_format [0.5; 0.25]%float
                                (demo_world nat 0%nat ∅ demo_files))))
       = 3%nat.
Proof.
  apply (completed_sweep_counts nat (scripted all_ok_script) demo_mktemp
           demo_str demo_format [0.5; 0.25]%float
           (demo_world nat 0%nat ∅ demo_files)).
  - exists BinaryFile. vm_compute. reflexivity.
  - vm_compute. reflexivity.
Defined.
